(** * GarminPenguinExpress: activity manifest, workout compiler, sync policy

    A shallow embedding of the core of the [garmin_penguin_express]
    package:

    - [activity_sync.py]: [ActivityManifest] and [ActivityRepository];
    - [workout_manager.py]: [WorkoutTemplate], [build_payload],
      [sanitize_filename];
    - [sync_service.py]: [copy_library_to_watch] and the helpers it calls.

    Python dictionaries keyed by strings are finite maps ([gmap string]),
    Python integers are [Z], Python exceptions are the [Raise] branch of
    [result]. *)

From Stdlib Require Import ZArith Bool List Ascii String Lia.
From Stdlib Require Import SpecFloat.
From stdpp Require Import gmap strings list fin_maps.
Import ListNotations.

Local Open Scope string_scope.

(** ** Python values and exceptions *)

Module Py.

(** The values a JSON document decodes to, which is what the fields of a
    manifest record hold. *)
#[local] Unset Elimination Schemes.
Inductive pyval : Type :=
| PyNone
| PyBool (b : bool)
| PyInt (z : Z)
| PyFloat (f : spec_float)
| PyStr (s : string)
| PyList (l : list pyval)
| PyDict (d : list (string * pyval)).
#[local] Set Elimination Schemes.

(** Python's truth value testing, [bool(v)]. *)
Definition truthy (v : pyval) : bool :=
  match v with
  | PyNone => false
  | PyBool b => b
  | PyInt z => negb (z =? 0)%Z
  | PyFloat (S754_zero _) => false
  | PyFloat _ => true
  | PyStr s => negb (String.eqb s "")
  | PyList [] => false
  | PyList (_ :: _) => true
  | PyDict [] => false
  | PyDict (_ :: _) => true
  end.

(** [v == s] for a [str] object [s]: a string only equals a string. *)
Definition eq_str (v : pyval) (s : string) : bool :=
  match v with
  | PyStr s' => String.eqb s' s
  | _ => false
  end.

(** A value of type [str | None]. *)
Definition of_opt_str (o : option string) : pyval :=
  match o with
  | Some s => PyStr s
  | None => PyNone
  end.

(** Exceptions raised by the modelled code. *)
Inductive exn : Type :=
| OverflowError (msg : string)
| KeyError (key : string)
| FileNotFoundError (msg : string)
| FFmpegError (msg : string)
| JSONDecodeError (msg : string)
| UnicodeDecodeError (msg : string).

Inductive result (A : Type) : Type :=
| Ok (a : A)
| Raise (e : exn).
Arguments Ok {A} a.
Arguments Raise {A} e.

Definition bind {A B} (r : result A) (k : A -> result B) : result B :=
  match r with
  | Ok a => k a
  | Raise e => Raise e
  end.

(** [float(z)] for an [int]: the nearest binary64 value (ties to even);
    CPython raises [OverflowError] when that value is not finite, which
    happens from [2^1024 - 2^970] on. *)
Definition float_max_int : Z := (2 ^ 1024 - 2 ^ 970)%Z.

Definition float_of_int (z : Z) : result spec_float :=
  if (Z.abs z <? float_max_int)%Z
  then Ok (binary_normalize 53 1024 z 0 false)
  else Raise (OverflowError "int too large to convert to float").

(** Characters are code points below 256 (Rocq's [ascii]), on which
    [str.isalnum], [str.isspace] and [str.lower] are tabulated as CPython
    has them. *)
Definition in_range (lo hi n : nat) : bool := (lo <=? n)%nat && (n <=? hi)%nat.

Definition isalnum (ch : ascii) : bool :=
  let n := nat_of_ascii ch in
  in_range 48 57 n || in_range 65 90 n || in_range 97 122 n
  || (n =? 170)%nat || in_range 178 179 n || (n =? 181)%nat || in_range 185 186 n
  || in_range 188 190 n || in_range 192 214 n || in_range 216 246 n
  || in_range 248 255 n.

Definition isspace (ch : ascii) : bool :=
  let n := nat_of_ascii ch in
  in_range 9 13 n || in_range 28 32 n || (n =? 133)%nat || (n =? 160)%nat.

Definition lower_char (ch : ascii) : ascii :=
  let n := nat_of_ascii ch in
  if in_range 65 90 n || in_range 192 214 n || in_range 216 222 n
  then ascii_of_nat (n + 32)%nat else ch.

Fixpoint str_map (f : ascii -> ascii) (s : string) : string :=
  match s with
  | EmptyString => EmptyString
  | String ch s' => String (f ch) (str_map f s')
  end.

(** [s.lower()]. *)
Definition lower (s : string) : string := str_map lower_char s.

(** [s.lstrip()], [s.rstrip()] and [s.strip()] with no argument: leading
    and trailing whitespace is dropped. *)
Fixpoint lstrip (s : string) : string :=
  match s with
  | EmptyString => EmptyString
  | String ch s' => if isspace ch then lstrip s' else s
  end.

Fixpoint rstrip (s : string) : string :=
  match s with
  | EmptyString => EmptyString
  | String ch s' =>
      match rstrip s' with
      | EmptyString => if isspace ch then EmptyString else String ch EmptyString
      | r => String ch r
      end
  end.

Definition strip (s : string) : string := rstrip (lstrip s).

(** [s.startswith(prefix)]. *)
Definition startswith (s pre : string) : bool := String.prefix pre s.

End Py.

Import Py.

Notation "x <- c1 ;; c2" := (Py.bind c1 (fun x => c2))
  (at level 100, c1 at next level, right associativity).

(** ** activity_sync.py *)

Module ActivitySync.

(** A manifest record is a [dict]; the manifest payload is declared
    [dict[str, dict]]. *)
Abbreviation record := (gmap string pyval).
Abbreviation payload := (gmap string (gmap string pyval)).

(** The manifest file on disk: absent, or present, in which case it is
    represented by what [json.loads(self.path.read_text())] does on it: the
    decoded mapping, or the exception raised ([JSONDecodeError] for a
    malformed document). *)
Inductive manifest_file : Type :=
| Absent
| Present (loads : result payload).

(** An [ActivityManifest] object together with the file it writes
    through to. *)
Record ActivityManifest : Type := {
  _payload : payload;
  file : manifest_file
}.

Record ActivityEntry : Type := {
  path : string;
  relative_path : string;
  recorded_time : option string;
  sport : option string;
  duration_seconds : option spec_float;
  size_bytes : Z;
  sha256 : string;
  uploaded : bool;
  upload_id : option string;
  source : string
}.

(** [ActivityManifest._load]: only [json.JSONDecodeError] is caught. *)
Definition _load (self : ActivityManifest) : result ActivityManifest :=
  match file self with
  | Absent => Ok self
  | Present (Ok doc) => Ok {| _payload := doc; file := file self |}
  | Present (Raise (JSONDecodeError _)) => Ok {| _payload := ∅; file := file self |}
  | Present (Raise e) => Raise e
  end.

(** [ActivityManifest.__init__]. *)
Definition __init__ (f : manifest_file) : result ActivityManifest :=
  _load {| _payload := ∅; file := f |}.

(** [ActivityManifest.save]: the file now holds the dumped payload. *)
Definition save (self : ActivityManifest) : ActivityManifest :=
  {| _payload := _payload self; file := Present (Ok (_payload self)) |}.

(** [self._payload.setdefault(relative_path, {})]: the record found or
    the fresh empty one, and the payload that now holds it. *)
Definition payload_setdefault (relative_path : string) (pl : payload)
  : record * payload :=
  match pl !! relative_path with
  | Some r => (r, pl)
  | None => (∅, <[relative_path := ∅]> pl)
  end.

(** [record.setdefault(key, v)]. *)
Definition record_setdefault (key : string) (v : pyval) (r : record) : record :=
  match r !! key with
  | Some _ => r
  | None => <[key := v]> r
  end.

(** [record.update(items)], the items taken in the order of the
    dictionary literal. *)
Definition record_update (items : list (string * pyval)) (r : record) : record :=
  foldl (fun acc kv => <[kv.1 := kv.2]> acc) r items.

(** The dictionary literal [mark_uploaded] passes to [update]; [now] is
    what [datetime.utcnow().isoformat(timespec="seconds")] returns. *)
Definition uploaded_fields (sha256 : string) (upload_id : option string)
    (now : string) : list (string * pyval) :=
  [ ("sha256", PyStr sha256);
    ("uploaded", PyBool true);
    ("upload_id", of_opt_str upload_id);
    ("last_uploaded", PyStr now) ].

(** [ActivityManifest.mark_uploaded]. The record is updated in place, so
    the payload sees the updated record. *)
Definition mark_uploaded (self : ActivityManifest) (relative_path sha256 : string)
    (upload_id : option string) (now : string) : ActivityManifest :=
  let '(r, pl) := payload_setdefault relative_path (_payload self) in
  let r' := record_update (uploaded_fields sha256 upload_id now) r in
  save {| _payload := <[relative_path := r']> pl; file := file self |}.

(** [ActivityManifest.mark_copied]. *)
Definition mark_copied (self : ActivityManifest) (relative_path sha256 : string)
  : ActivityManifest :=
  let '(r, pl) := payload_setdefault relative_path (_payload self) in
  let r' := record_setdefault "sha256" (PyStr sha256) r in
  save {| _payload := <[relative_path := r']> pl; file := file self |}.

(** [record.get(key)], with Python's default [None]. *)
Definition record_get (key : string) (r : record) : pyval :=
  default PyNone (r !! key).

(** [ActivityManifest.is_uploaded]. [not record] holds for a missing
    record ([None]) and for an empty one. *)
Definition is_uploaded (self : ActivityManifest) (relative_path sha256 : string)
  : bool * pyval :=
  match _payload self !! relative_path with
  | None => (false, PyNone)
  | Some r =>
      if decide (r = ∅) then (false, PyNone)
      else if negb (eq_str (record_get "sha256" r) sha256) then (false, PyNone)
      else (truthy (record_get "uploaded" r), record_get "upload_id" r)
  end.

(** [ActivityRepository.mark_uploaded]: the loop over
    [zip(entries, upload_ids, strict=False)]. Each iteration reads the
    clock; [utcnow k] is the [k]-th reading. *)
Fixpoint repository_mark_uploaded (utcnow : nat -> string) (tick : nat)
    (manifest : ActivityManifest)
    (entries : list ActivityEntry) (upload_ids : list (option string))
  : ActivityManifest :=
  match entries, upload_ids with
  | entry :: entries', upload_id :: upload_ids' =>
      repository_mark_uploaded utcnow (S tick)
        (mark_uploaded manifest (relative_path entry) (sha256 entry)
           upload_id (utcnow tick))
        entries' upload_ids'
  | _, _ => manifest
  end.

(** Sample data. *)
Definition demo_entry (rel sha : string) : ActivityEntry :=
  {| path := "/run/user/1000/gvfs/mtp/" ++ rel; relative_path := rel;
     recorded_time := None; sport := None; duration_seconds := None;
     size_bytes := 0; sha256 := sha; uploaded := false; upload_id := None;
     source := "Activity" |}.

Definition empty_manifest : ActivityManifest := {| _payload := ∅; file := Absent |}.

Definition demo_entries : list ActivityEntry :=
  [ demo_entry "GARMIN/Activity/a.fit" "aa";
    demo_entry "GARMIN/Activity/b.fit" "bb";
    demo_entry "GARMIN/Activity/c.fit" "cc" ].

Definition demo_clock (tick : nat) : string := "2024-05-01T10:00:00".

Definition demo_marked : ActivityManifest :=
  repository_mark_uploaded demo_clock 0 empty_manifest demo_entries [Some "1"; None].

Definition demo_manifest : ActivityManifest :=
  mark_uploaded empty_manifest "GARMIN/Activity/run.fit" "aa" (Some "42")
    "2024-05-01T10:00:00".

End ActivitySync.

(** ** workout_manager.py *)

Module WorkoutManager.

Record SportType : Type := {
  sportTypeId : Z;
  sportTypeKey : string;
  sport_displayOrder : Z
}.

Record StepType : Type := {
  stepTypeId : Z;
  stepTypeKey : string;
  step_displayOrder : Z
}.

Record TargetType : Type := {
  workoutTargetTypeId : Z;
  workoutTargetTypeKey : string;
  target_displayOrder : Z
}.

Record ConditionType : Type := {
  conditionTypeId : Z;
  conditionTypeKey : string;
  condition_displayOrder : Z;
  displayable : bool
}.

Definition SPORT_TYPES : gmap string SportType :=
  list_to_map
    [ ("running", {| sportTypeId := 1; sportTypeKey := "running"; sport_displayOrder := 1 |});
      ("cycling", {| sportTypeId := 2; sportTypeKey := "cycling"; sport_displayOrder := 2 |});
      ("other", {| sportTypeId := 9; sportTypeKey := "other"; sport_displayOrder := 9 |}) ].

Definition STEP_TYPES : gmap string StepType :=
  list_to_map
    [ ("warmup", {| stepTypeId := 1; stepTypeKey := "warmup"; step_displayOrder := 1 |});
      ("cooldown", {| stepTypeId := 2; stepTypeKey := "cooldown"; step_displayOrder := 2 |});
      ("interval", {| stepTypeId := 3; stepTypeKey := "interval"; step_displayOrder := 3 |});
      ("recovery", {| stepTypeId := 4; stepTypeKey := "recovery"; step_displayOrder := 4 |});
      ("repeat", {| stepTypeId := 6; stepTypeKey := "repeat"; step_displayOrder := 6 |}) ].

Definition TARGET_NONE : TargetType :=
  {| workoutTargetTypeId := 1; workoutTargetTypeKey := "no.target";
     target_displayOrder := 1 |}.

Definition TIME_CONDITION : ConditionType :=
  {| conditionTypeId := 2; conditionTypeKey := "time";
     condition_displayOrder := 2; displayable := true |}.

Definition ITERATION_CONDITION : ConditionType :=
  {| conditionTypeId := 7; conditionTypeKey := "iterations";
     condition_displayOrder := 7; displayable := false |}.

(** [d[key]] on a dictionary of descriptors. *)
Definition getitem {A} (d : gmap string A) (key : string) : result A :=
  match d !! key with
  | Some v => Ok v
  | None => Raise (KeyError key)
  end.

Record WorkoutTemplate : Type := {
  name : string;
  sport : string;
  warmup_seconds : Z;
  interval_seconds : Z;
  recovery_seconds : Z;
  repeats : Z;
  cooldown_seconds : Z
}.

(** [WorkoutTemplate.estimated_duration], with its accumulator. *)
Definition estimated_duration (self : WorkoutTemplate) : Z :=
  let total := 0%Z in
  let total := (total + Z.max 0 (warmup_seconds self))%Z in
  let total := (total + Z.max 0 (cooldown_seconds self))%Z in
  let total :=
    (total + (Z.max 0 (interval_seconds self) + Z.max 0 (recovery_seconds self))
             * Z.max 0 (repeats self))%Z in
  total.

(** The dictionary with ["type": "ExecutableStepDTO"]. *)
Record ExecutableStepDTO : Type := {
  stepOrder : Z;
  stepType : StepType;
  endCondition : ConditionType;
  endConditionValue : spec_float;
  targetType : TargetType;
  strokeType : Z * Z;        (* strokeTypeId, displayOrder *)
  equipmentType : Z * Z      (* equipmentTypeId, displayOrder *)
}.

(** The dictionary with ["type": "RepeatGroupDTO"]. *)
Record RepeatGroupDTO : Type := {
  rg_stepOrder : Z;
  rg_stepType : StepType;
  numberOfIterations : Z;
  rg_workoutSteps : list ExecutableStepDTO;
  rg_endConditionValue : spec_float;
  rg_endCondition : ConditionType;
  smartRepeat : bool
}.

Inductive WorkoutStep : Type :=
| ExecutableStep (s : ExecutableStepDTO)
| RepeatGroup (g : RepeatGroupDTO).

Record WorkoutSegment : Type := {
  segmentOrder : Z;
  seg_sportType : SportType;
  workoutSteps : list WorkoutStep
}.

Record WorkoutPayload : Type := {
  workoutName : string;
  sportType : SportType;
  estimatedDurationInSecs : Z;
  workoutSegments : list WorkoutSegment
}.

Definition executable_step (order : Z) (step_type_key : string) (seconds : Z)
  : result ExecutableStepDTO :=
  step_type <- getitem STEP_TYPES step_type_key ;;
  value <- float_of_int seconds ;;
  Ok {| stepOrder := order;
        stepType := step_type;
        endCondition := TIME_CONDITION;
        endConditionValue := value;
        targetType := TARGET_NONE;
        strokeType := (0, 0)%Z;
        equipmentType := (0, 0)%Z |}.

Definition build_repeat_block (order : Z) (template : WorkoutTemplate)
  : result (WorkoutStep * Z) :=
  interval_step <- executable_step (order + 1) "interval" (interval_seconds template) ;;
  recovery_step <- executable_step (order + 2) "recovery" (recovery_seconds template) ;;
  step_type <- getitem STEP_TYPES "repeat" ;;
  value <- float_of_int (repeats template) ;;
  let repeat_step :=
    {| rg_stepOrder := order;
       rg_stepType := step_type;
       numberOfIterations := repeats template;
       rg_workoutSteps := [interval_step; recovery_step];
       rg_endConditionValue := value;
       rg_endCondition := ITERATION_CONDITION;
       smartRepeat := false |} in
  Ok (RepeatGroup repeat_step, (order + 2)%Z).

(** [WorkoutManager.build_payload]; [steps] and [order] are the two local
    variables the three [if] statements update. *)
Definition build_payload (template : WorkoutTemplate) : result WorkoutPayload :=
  running <- getitem SPORT_TYPES "running" ;;
  let sport := default running (SPORT_TYPES !! sport template) in
  let steps : list WorkoutStep := [] in
  let order := 1%Z in
  st1 <- (if (0 <? warmup_seconds template)%Z
          then step <- executable_step order "warmup" (warmup_seconds template) ;;
               Ok ((steps ++ [ExecutableStep step])%list, (order + 1)%Z)
          else Ok (steps, order)) ;;
  let '(steps, order) := st1 in
  st2 <- (if (0 <? repeats template)%Z && (0 <? interval_seconds template)%Z
          then ro <- build_repeat_block order template ;;
               let '(repeat_block, order) := ro in
               Ok ((steps ++ [repeat_block])%list, order)
          else Ok (steps, order)) ;;
  let '(steps, order) := st2 in
  steps <- (if (0 <? cooldown_seconds template)%Z
            then step <- executable_step order "cooldown" (cooldown_seconds template) ;;
                 Ok (steps ++ [ExecutableStep step])%list
            else Ok steps) ;;
  Ok {| workoutName := name template;
        sportType := sport;
        estimatedDurationInSecs := estimated_duration template;
        workoutSegments :=
          [ {| segmentOrder := 1;
               seg_sportType := sport;
               workoutSteps := steps |} ] |}.

(** [sanitize_filename]: the generator expression keeps or replaces each
    character of the stripped name; [safe or "workout"] falls back when
    [safe] is the empty string. *)
Definition safe_char (ch : ascii) : ascii :=
  if isalnum ch || (Ascii.eqb ch "-" || Ascii.eqb ch "_") then ch else "_"%char.

Definition sanitize_filename (name : string) : string :=
  let safe := str_map safe_char (strip name) in
  if String.eqb safe "" then "workout" else safe.

(** The order indices of the emitted steps, a repeat block's own index
    before those of its children. *)
Definition step_orders_of (s : WorkoutStep) : list Z :=
  match s with
  | ExecutableStep e => [stepOrder e]
  | RepeatGroup g => rg_stepOrder g :: map stepOrder (rg_workoutSteps g)
  end.

Definition step_orders (steps : list WorkoutStep) : list Z :=
  concat (map step_orders_of steps).

Definition is_repeat_block (s : WorkoutStep) : bool :=
  match s with
  | RepeatGroup _ => true
  | ExecutableStep _ => false
  end.

(** The three conditions under which a step is emitted. *)
Definition has_warmup (t : WorkoutTemplate) : bool := (0 <? warmup_seconds t)%Z.
Definition has_repeat (t : WorkoutTemplate) : bool :=
  (0 <? repeats t)%Z && (0 <? interval_seconds t)%Z.
Definition has_cooldown (t : WorkoutTemplate) : bool := (0 <? cooldown_seconds t)%Z.

(** The step count the specification gives:
    1{warmup>0} + 1{repeats>0 and interval>0} + 1{cooldown>0}. *)
Definition expected_step_count (t : WorkoutTemplate) : nat :=
  (Nat.b2n (has_warmup t) + Nat.b2n (has_repeat t) + Nat.b2n (has_cooldown t))%nat.

(** The duration the specification gives: negative components count as 0,
    then warmup + cooldown + repeats * (interval + recovery). *)
Definition clamp0 (z : Z) : Z := if (z <? 0)%Z then 0%Z else z.

Definition estimated_duration_spec (t : WorkoutTemplate) : Z :=
  (clamp0 (warmup_seconds t) + clamp0 (cooldown_seconds t)
   + clamp0 (repeats t) * (clamp0 (interval_seconds t) + clamp0 (recovery_seconds t)))%Z.

(** The order indices [build_payload] hands out: the counter value [n] at
    the repeat block, and the value the cooldown step gets. *)
Definition repeat_order (t : WorkoutTemplate) : Z :=
  if has_warmup t then 2%Z else 1%Z.

Definition cooldown_order (t : WorkoutTemplate) : Z :=
  if has_repeat t then (repeat_order t + 2)%Z else repeat_order t.

Definition emitted_orders (t : WorkoutTemplate) : list Z :=
  ((if has_warmup t then [1%Z] else [])
   ++ (if has_repeat t
       then [repeat_order t; (repeat_order t + 1)%Z; (repeat_order t + 2)%Z]
       else [])
   ++ (if has_cooldown t then [cooldown_order t] else []))%list.

(** [float(seconds)] succeeds for every value a step of the template
    converts. *)
Definition float_convertible (z : Z) : Prop := (Z.abs z < float_max_int)%Z.

Definition compilable (t : WorkoutTemplate) : Prop :=
  (has_warmup t = true -> float_convertible (warmup_seconds t))
  /\ (has_repeat t = true ->
      float_convertible (interval_seconds t)
      /\ float_convertible (recovery_seconds t)
      /\ float_convertible (repeats t))
  /\ (has_cooldown t = true -> float_convertible (cooldown_seconds t)).

(** Sample templates: the specification's scenario and an all-zero one. *)
Definition scenario_template : WorkoutTemplate :=
  {| name := "Intervals"; sport := "running"; warmup_seconds := 300;
     interval_seconds := 60; recovery_seconds := 60; repeats := 6;
     cooldown_seconds := 300 |}.

Definition zero_template (n s : string) : WorkoutTemplate :=
  {| name := n; sport := s; warmup_seconds := 0; interval_seconds := 0;
     recovery_seconds := 0; repeats := 0; cooldown_seconds := 0 |}.

(** Predicates on strings used to state what [strip] removes. *)
Fixpoint str_forallb (f : ascii -> bool) (s : string) : bool :=
  match s with
  | EmptyString => true
  | String ch s' => f ch && str_forallb f s'
  end.

Definition first_char (s : string) : option ascii := String.get 0 s.

Fixpoint last_char (s : string) : option ascii :=
  match s with
  | EmptyString => None
  | String ch EmptyString => Some ch
  | String _ s' => last_char s'
  end.

(** The characters the specification keeps. *)
Definition valid_char (ch : ascii) : bool :=
  isalnum ch || (Ascii.eqb ch "-" || Ascii.eqb ch "_").

Definition is_space_opt (o : option ascii) : bool :=
  match o with
  | Some ch => isspace ch
  | None => false
  end.

End WorkoutManager.

(** ** gio_utils.py, conversion.py and sync_service.py *)

Module SyncService.

(** What a run leaves behind, in order: lines passed to the [log]
    callback, command lines handed to [subprocess.run], and the file
    system calls made directly. *)
Inductive event : Type :=
| Log (message : string)
| Run (cmd : list string)
| Mkdir (dir : string)
| Mkdtemp (dir : string)
| Unlink (file : string)
| Rmdir (dir : string).

(** A computation: the events it produced and how it ended. *)
Definition io (A : Type) : Type := list event * result A.

Definition ret {A} (a : A) : io A := ([], Ok a).
Definition raise {A} (e : exn) : io A := ([], Raise e).
Definition emit (e : event) : io unit := ([e], Ok tt).

Definition io_bind {A B} (m : io A) (k : A -> io B) : io B :=
  match m with
  | (t1, Ok a) => let '(t2, r) := k a in ((t1 ++ t2)%list, r)
  | (t1, Raise e) => (t1, Raise e)
  end.

(** [try: m finally: cleanup], for a cleanup that does not raise. *)
Definition finally {A} (m : io A) (cleanup : list event) : io A :=
  ((fst m ++ cleanup)%list, snd m).

(** [for x in l: body(x)]. *)
Fixpoint for_each {A} (l : list A) (body : A -> io unit) : io unit :=
  match l with
  | [] => ret tt
  | x :: l' => io_bind (body x) (fun _ => for_each l' body)
  end.

Notation "x <~ c1 ;; c2" := (io_bind c1 (fun x => c2))
  (at level 100, c1 at next level, right associativity).
Notation "c1 ;;; c2" := (io_bind c1 (fun _ => c2))
  (at level 100, right associativity).

(** A [pathlib.Path] to a file, by the parts the code reads:
    [name = stem + suffix], [str(p) = parent/name]. Directories are
    kept as their [str]. *)
Record Path : Type := {
  parent : string;
  stem : string;
  suffix : string
}.

Definition name (p : Path) : string := stem p ++ suffix p.
Definition joinpath (dir child : string) : string := dir ++ "/" ++ child.
Definition str (p : Path) : string := joinpath (parent p) (name p).

Record GioCommandResult : Type := {
  stdout : string;
  stderr : string;
  returncode : Z
}.

Definition ok (r : GioCommandResult) : bool := (returncode r =? 0)%Z.

(** [_run(cmd, check=False)]: the command is run and its result comes
    back; [res] is what the process answers. *)
Definition _run (cmd : list string) (res : GioCommandResult) : io GioCommandResult :=
  emit (Run cmd) ;;; ret res.

(** [_log(log, message)]; [log] tells whether a callback was given. *)
Definition _log (log : bool) (message : string) : io unit :=
  if log then emit (Log message) else ret tt.

Definition ensure_directory (path : string) (log : bool) (res : GioCommandResult)
  : io unit :=
  result <~ _run ["gio"; "make-directory"; path] res ;;
  if log then
    if ok result then emit (Log ("Created " ++ path))
    else emit (Log ("gio make-directory " ++ path ++ " -> "
                    ++ (if String.eqb (stderr result) "" then "already exists?"
                        else stderr result)))
  else ret tt.

Definition gio_copy (src dest : string) (recursive : bool) (res : GioCommandResult)
  : io GioCommandResult :=
  let cmd := ["gio"; "copy"] in
  let cmd := if recursive then (cmd ++ ["-r"])%list else cmd in
  let cmd := (cmd ++ [src; dest])%list in
  _run cmd res.

Definition gio_remove (path : string) (log : bool) (res : GioCommandResult)
  : io unit :=
  result <~ _run ["gio"; "remove"; path] res ;;
  if log then
    if ok result then emit (Log ("Removed " ++ path))
    else emit (Log ("Failed to remove " ++ path ++ ": " ++ stderr result))
  else ret tt.

(** [wipe_directory]; [entries] are the names [gio_list(path)] returned,
    each with the answer its removal will get. *)
Definition wipe_directory (path : string) (log : bool)
    (entries : list (string * GioCommandResult)) : io unit :=
  for_each entries (fun '(entry, res) =>
    let full_path := joinpath path entry in
    (if log then emit (Log ("Removing " ++ entry)) else ret tt) ;;;
    gio_remove full_path log res).

(** What the environment answers while one local file is handled. *)
Record FileRun : Type := {
  src : Path;
  which_ffmpeg : bool;              (* shutil.which("ffmpeg") is not None *)
  tmp_dir : string;                 (* tempfile.mkdtemp(prefix="gpe_ffmpeg_") *)
  ffmpeg_returncode : Z;
  ffmpeg_stderr : string;
  parent_result : GioCommandResult; (* gio make-directory of the destination parent *)
  copy_result : GioCommandResult    (* gio copy *)
}.

Definition ensure_ffmpeg_available (f : FileRun) : io unit :=
  if which_ffmpeg f then ret tt
  else raise (FFmpegError "ffmpeg command not found. Install ffmpeg to enable conversion").

Definition convert_file_to_mp3 (f : FileRun) (log : bool) : io Path :=
  ensure_ffmpeg_available f ;;;
  (if log then emit (Log ("Converting " ++ name (src f) ++ " to MP3 via ffmpeg"))
   else ret tt) ;;;
  emit (Mkdtemp (tmp_dir f)) ;;;
  let dest := {| parent := tmp_dir f; stem := stem (src f); suffix := ".mp3" |} in
  emit (Run ["ffmpeg"; "-y"; "-i"; str (src f); "-vn"; "-acodec"; "libmp3lame";
             "-qscale:a"; "2"; str dest]) ;;;
  if negb (ffmpeg_returncode f =? 0)%Z then
    raise (FFmpegError (if String.eqb (strip (ffmpeg_stderr f)) ""
                        then "ffmpeg conversion failed"
                        else strip (ffmpeg_stderr f)))
  else ret dest.

(** [with maybe_convert_to_mp3(src, enable, log) as (path_to_copy,
    dest_name): body]. *)
Definition maybe_convert_to_mp3 {A} (f : FileRun) (enable log : bool)
    (body : Path -> string -> io A) : io A :=
  if enable && negb (String.eqb (lower (suffix (src f))) ".mp3") then
    converted <~ convert_file_to_mp3 f log ;;
    finally (body converted (stem (src f) ++ ".mp3"))
            [Unlink (str converted); Rmdir (parent converted)]
  else body (src f) (name (src f)).

Definition _ensure_destination_parent (GVFS_BASE dest_parent : string)
    (res : GioCommandResult) : io unit :=
  if startswith dest_parent GVFS_BASE then ensure_directory dest_parent false res
  else emit (Mkdir dest_parent).

(** [_gio_copy_with_log(src, dest, recursive, log)] with
    [dest = dest_dir / dest_name]. *)
Definition _gio_copy_with_log (GVFS_BASE : string) (src_path : Path)
    (dest_dir dest_name : string) (recursive log : bool)
    (parent_res copy_res : GioCommandResult) : io unit :=
  let dest := joinpath dest_dir dest_name in
  _ensure_destination_parent GVFS_BASE dest_dir parent_res ;;;
  result <~ gio_copy (str src_path) dest recursive copy_res ;;
  if log then
    if ok result then emit (Log ("Copied " ++ name src_path ++ " -> " ++ dest))
    else emit (Log ("Failed to copy " ++ str src_path ++ " -> " ++ dest ++ ": "
                    ++ stderr result))
  else ret tt.

Definition _copy_local_file_to_watch (GVFS_BASE : string) (f : FileRun)
    (dest_dir : string) (auto_convert log : bool) : io unit :=
  maybe_convert_to_mp3 f auto_convert log (fun path_to_copy dest_name =>
    _gio_copy_with_log GVFS_BASE path_to_copy dest_dir dest_name false log
      (parent_result f) (copy_result f)).

(** [copy_library_to_watch]. [src_exists] is [src_dir.exists()],
    [music_dir] is what [_music_dir(mount, profile)] resolves to, [files]
    is [sorted(p for p in src_dir.iterdir() if p.is_file())] with the
    answers each file will get, and [music_dir_res] answers the
    [gio make-directory] of the music directory. *)
Definition copy_library_to_watch (GVFS_BASE src_dir : string) (src_exists : bool)
    (music_dir : string) (files : list FileRun) (auto_convert log : bool)
    (music_dir_res : GioCommandResult) : io unit :=
  if negb src_exists then
    raise (FileNotFoundError ("Source directory " ++ src_dir ++ " does not exist"))
  else
    _log log ("Copying files from " ++ src_dir ++ " -> " ++ music_dir) ;;;
    match files with
    | [] => _log log ("No files found in " ++ src_dir)
    | _ :: _ =>
        ensure_directory music_dir false music_dir_res ;;;
        for_each files (fun file_path =>
          _copy_local_file_to_watch GVFS_BASE file_path music_dir auto_convert log)
    end.

(** The [gio copy] command lines found in a trace. *)
Definition is_gio_copy (e : event) : bool :=
  match e with
  | Run (c0 :: c1 :: _) => String.eqb c0 "gio" && String.eqb c1 "copy"
  | _ => false
  end.

Definition gio_copies (t : list event) : list event := List.filter is_gio_copy t.

(** The file a run hands to [gio copy], and under which name. *)
Definition needs_conversion (auto_convert : bool) (f : FileRun) : bool :=
  auto_convert && negb (String.eqb (lower (suffix (src f))) ".mp3").

Definition conversion_succeeds (auto_convert : bool) (f : FileRun) : bool :=
  negb (needs_conversion auto_convert f)
  || (which_ffmpeg f && (ffmpeg_returncode f =? 0)%Z).

Definition path_to_copy (auto_convert : bool) (f : FileRun) : Path :=
  if needs_conversion auto_convert f
  then {| parent := tmp_dir f; stem := stem (src f); suffix := ".mp3" |}
  else src f.

Definition dest_name (auto_convert : bool) (f : FileRun) : string :=
  if needs_conversion auto_convert f then stem (src f) ++ ".mp3" else name (src f).

Definition copy_command (music_dir : string) (auto_convert : bool) (f : FileRun)
  : event :=
  Run ["gio"; "copy"; str (path_to_copy auto_convert f);
       joinpath music_dir (dest_name auto_convert f)].


(** The [gio remove] command lines found in a trace. *)
Definition is_gio_remove (e : event) : bool :=
  match e with
  | Run (c0 :: c1 :: _) => String.eqb c0 "gio" && String.eqb c1 "remove"
  | _ => false
  end.

Definition gio_removes (t : list event) : list event := List.filter is_gio_remove t.

Definition remove_command (path : string) (entry : string * GioCommandResult) : event :=
  Run ["gio"; "remove"; joinpath path entry.1].

(** Sample data: two MP3 files, the copy of the first one fails. *)
Definition ok_result : GioCommandResult :=
  {| stdout := ""; stderr := ""; returncode := 0 |}.

Definition failed_result : GioCommandResult :=
  {| stdout := ""; stderr := "No space left on device"; returncode := 1 |}.

Definition sample_file (s : string) (copy_res : GioCommandResult) : FileRun :=
  {| src := {| parent := "/home/u/Music"; stem := s; suffix := ".mp3" |};
     which_ffmpeg := true;
     tmp_dir := "/tmp/gpe_ffmpeg_0";
     ffmpeg_returncode := 0;
     ffmpeg_stderr := "";
     parent_result := ok_result;
     copy_result := copy_res |}.



End SyncService.

(** ** activity_sync.py: ActivityRepository.copy_to_local *)

Module ActivityCopy.
Import ActivitySync.

(** [PurePosixPath(s).name]: the last component of [s], empty and ["."]
    components being dropped by the parser. *)
Fixpoint components (s : string) : list string :=
  match s with
  | EmptyString => [EmptyString]
  | String ch s' =>
      if Ascii.eqb ch "/" then EmptyString :: components s'
      else match components s' with
           | h :: t => String ch h :: t
           | [] => [String ch EmptyString]
           end
  end.

Definition parts (s : string) : list string :=
  List.filter (fun c => negb (String.eqb c "") && negb (String.eqb c "."))
    (components s).

Definition path_name (s : string) : string := List.last (parts s) "".

(** The loop of [copy_to_local]. Each entry comes with what
    [shutil.copy2(entry.path, dest_path)] does for it; a destination path
    [destination / name] is kept as the pair of its two parts. The
    manifest is returned as well, since the calls to [mark_copied] made
    before an exception stay in effect. *)
Fixpoint copy_loop (manifest : ActivityManifest)
    (activities : list (ActivityEntry * result unit)) (destination : string)
    (copied : list (string * string))
  : ActivityManifest * result (list (string * string)) :=
  match activities with
  | [] => (manifest, Ok copied)
  | (entry, copy2) :: rest =>
      let dest_path := (destination, path_name (relative_path entry)) in
      match copy2 with
      | Raise e => (manifest, Raise e)
      | Ok _ =>
          copy_loop (mark_copied manifest (relative_path entry) (sha256 entry))
            rest destination (copied ++ [dest_path])%list
      end
  end.

(** [ActivityRepository.copy_to_local]; [mkdir] is what
    [destination.mkdir(parents=True, exist_ok=True)] does. *)
Definition copy_to_local (manifest : ActivityManifest) (mkdir : result unit)
    (activities : list (ActivityEntry * result unit)) (destination : string)
  : ActivityManifest * result (list (string * string)) :=
  match mkdir with
  | Raise e => (manifest, Raise e)
  | Ok _ => copy_loop manifest activities destination []
  end.

(** The manifest after [mark_copied] for each of the entries, in order. *)
Definition mark_all_copied (manifest : ActivityManifest) (entries : list ActivityEntry)
  : ActivityManifest :=
  foldl (fun m e => mark_copied m (relative_path e) (sha256 e)) manifest entries.

Definition copy_succeeds (a : ActivityEntry * result unit) : bool :=
  match a.2 with
  | Ok _ => true
  | Raise _ => false
  end.

(** The path [copy_to_local] produces for an entry. *)
Definition dest_of (destination : string) (a : ActivityEntry * result unit)
  : string * string :=
  (destination, path_name (relative_path a.1)).

End ActivityCopy.

(** ** workout_manager.py: the template list of WorkoutManager *)

Module WorkoutStore.
Import WorkoutManager.

(** [WorkoutTemplate.to_dict], that is [dataclasses.asdict]. *)
Definition to_dict (t : WorkoutTemplate) : gmap string pyval :=
  list_to_map
    [ ("name", PyStr (name t));
      ("sport", PyStr (sport t));
      ("warmup_seconds", PyInt (warmup_seconds t));
      ("interval_seconds", PyInt (interval_seconds t));
      ("recovery_seconds", PyInt (recovery_seconds t));
      ("repeats", PyInt (repeats t));
      ("cooldown_seconds", PyInt (cooldown_seconds t)) ].

(** A [WorkoutManager] with the store file it writes: [None] while the
    file does not exist, else the dumped list of dictionaries. *)
Record Manager : Type := {
  templates : list WorkoutTemplate;
  store : option (list (gmap string pyval))
}.

(** [WorkoutManager.save]. *)
Definition save (self : Manager) : Manager :=
  {| templates := templates self;
     store := Some (map to_dict (templates self)) |}.


(** [WorkoutManager.delete_template]: [self.templates.pop(index)] under
    the guard [0 <= index < len(self.templates)]. *)
Definition delete_template (self : Manager) (index : Z) : Manager :=
  if (0 <=? index)%Z && (index <? Z.of_nat (length (templates self)))%Z
  then save {| templates := delete (Z.to_nat index) (templates self);
               store := store self |}
  else self.

End WorkoutStore.

(** ** sync_service.py: the per-item operations, wipe and full sync *)

Module SyncOps.
Import SyncService.

(** [s.splitlines()] on code points below 256: a line ends at LF, VT, FF,
    CR (CR LF counting once), FS, GS, RS or NEL. *)
Definition is_linebreak (ch : ascii) : bool :=
  let n := nat_of_ascii ch in
  in_range 10 13 n || in_range 28 30 n || (n =? 133)%nat.

Fixpoint splitlines_from (cur s : string) : list string :=
  match s with
  | EmptyString => if String.eqb cur "" then [] else [cur]
  | String ch s' =>
      if is_linebreak ch then
        cur :: match s' with
               | String ch' s'' =>
                   if Ascii.eqb ch "013" && Ascii.eqb ch' "010"
                   then splitlines_from "" s''
                   else splitlines_from "" s'
               | EmptyString => splitlines_from "" s'
               end
      else splitlines_from (cur ++ String ch "") s'
  end.

Definition splitlines (s : string) : list string := splitlines_from "" s.

(** [gio_list]: the stripped non-blank lines of the listing, or nothing
    when the command failed. *)
Definition gio_list (path : string) (res : GioCommandResult) : io (list string) :=
  result <~ _run ["gio"; "list"; path] res ;;
  if negb (ok result) then ret []
  else ret (map strip
              (List.filter (fun line => negb (String.eqb (strip line) ""))
                 (splitlines (stdout result)))).

(** [wipe_watch_music]. [music_parent] is [music_dir.parent];
    [listing] answers the [gio list], [removal n] the removal of the entry
    named [n]. The listing is made by [gio_list] and the loop over it is
    [wipe_directory]. *)
Definition wipe_watch_music (music_dir music_parent : string) (log : bool)
    (parent_res dir_res listing : GioCommandResult)
    (removal : string -> GioCommandResult) : io unit :=
  _log log ("Wiping " ++ music_dir) ;;;
  ensure_directory music_parent false parent_res ;;;
  ensure_directory music_dir false dir_res ;;;
  names <~ gio_list music_dir listing ;;
  wipe_directory music_dir log (map (fun n => (n, removal n)) names).

(** [full_sync]. *)
Definition full_sync (GVFS_BASE src_dir : string) (src_exists : bool)
    (music_dir music_parent : string) (files : list FileRun)
    (auto_convert log : bool)
    (parent_res dir_res listing : GioCommandResult)
    (removal : string -> GioCommandResult)
    (music_dir_res : GioCommandResult) : io unit :=
  wipe_watch_music music_dir music_parent log parent_res dir_res listing removal ;;;
  copy_library_to_watch GVFS_BASE src_dir src_exists music_dir files auto_convert log
    music_dir_res.

(** A selected item on the watch: its path, whether it is a directory,
    and the answers to the two commands run for it. *)
Record WatchItem : Type := {
  item_path : Path;
  item_is_dir : bool;
  item_parent_result : GioCommandResult;
  item_result : GioCommandResult
}.

(** [copy_watch_items_to_local]. *)
Definition copy_watch_items_to_local (GVFS_BASE : string) (entries : list WatchItem)
    (local_dir : string) (log : bool) : io unit :=
  emit (Mkdir local_dir) ;;;
  for_each entries (fun e =>
    _gio_copy_with_log GVFS_BASE (item_path e) local_dir (name (item_path e))
      (item_is_dir e) log (item_parent_result e) (item_result e)).

(** [delete_watch_items]. *)
Definition delete_watch_items (entries : list WatchItem) (log : bool) : io unit :=
  for_each entries (fun e =>
    _log log ("Removing " ++ name (item_path e)) ;;;
    gio_remove (str (item_path e)) log (item_result e)).




(** Events of a kind, and the commands the operations are expected to
    issue. *)
Definition is_run (e : event) : bool :=
  match e with
  | Run _ => true
  | _ => false
  end.

Definition is_ffmpeg (e : event) : bool :=
  match e with
  | Run (c0 :: _) => String.eqb c0 "ffmpeg"
  | _ => false
  end.

Definition is_temp_file_event (e : event) : bool :=
  match e with
  | Mkdtemp _ | Unlink _ | Rmdir _ => true
  | _ => false
  end.

Definition watch_copy_command (local_dir : string) (e : WatchItem) : event :=
  Run ((["gio"; "copy"] ++ (if item_is_dir e then ["-r"] else []))
       ++ [str (item_path e); joinpath local_dir (name (item_path e))])%list.

Definition watch_remove_command (e : WatchItem) : event :=
  Run ["gio"; "remove"; str (item_path e)].

Definition remove_failure_line (e : WatchItem) : event :=
  Log ("Failed to remove " ++ str (item_path e) ++ ": " ++ stderr (item_result e)).



(** The temporary file a converted item is copied from. *)
Definition converted_path (f : FileRun) : Path :=
  {| parent := tmp_dir f; stem := stem (src f); suffix := ".mp3" |}.

(** The names [gio_list] returns for a listing. *)
Definition listed_names (res : GioCommandResult) : list string :=
  if negb (ok res) then []
  else map strip
         (List.filter (fun line => negb (String.eqb (strip line) ""))
            (splitlines (stdout res))).

(** The conversion command and the temporary-file events of a file. *)
Definition ffmpeg_command (f : FileRun) : event :=
  Run ["ffmpeg"; "-y"; "-i"; str (src f); "-vn"; "-acodec"; "libmp3lame";
       "-qscale:a"; "2"; str (converted_path f)].

Definition ffmpeg_events (auto_convert : bool) (f : FileRun) : list event :=
  if needs_conversion auto_convert f then [ffmpeg_command f] else [].

Definition temp_file_events (auto_convert : bool) (f : FileRun) : list event :=
  if needs_conversion auto_convert f
  then [Mkdtemp (tmp_dir f); Unlink (str (converted_path f)); Rmdir (tmp_dir f)]
  else [].

(** The steps taken for a file: making and removing temporary files,
    converting and copying; log lines and the making of destination
    directories are left aside. *)
Definition is_step_event (e : event) : bool :=
  is_gio_copy e || is_ffmpeg e || is_temp_file_event e.

Definition file_steps (music_dir : string) (auto_convert : bool) (f : FileRun)
  : list event :=
  if needs_conversion auto_convert f
  then [Mkdtemp (tmp_dir f); ffmpeg_command f; copy_command music_dir auto_convert f;
        Unlink (str (converted_path f)); Rmdir (tmp_dir f)]
  else [copy_command music_dir auto_convert f].

(** Sample data: a FLAC file whose copy fails, then an MP3 file. *)
Definition flac_file : FileRun :=
  {| src := {| parent := "/home/u/Music"; stem := "a"; suffix := ".FLAC" |};
     which_ffmpeg := true;
     tmp_dir := "/tmp/gpe_ffmpeg_0";
     ffmpeg_returncode := 0;
     ffmpeg_stderr := "";
     parent_result := ok_result;
     copy_result := failed_result |}.

Definition mixed_files : list FileRun := [flac_file; sample_file "b" ok_result].

Definition mixed_run : io unit :=
  copy_library_to_watch "/run/user/1000/gvfs" "/home/u/Music" true
    "/run/user/1000/gvfs/mtp:host=Garmin/Music" mixed_files true true ok_result.

End SyncOps.

(** ** config_store.py *)

Module ConfigStore.

(** A [UserPreferences] object; the fields hold whatever was loaded. *)
Record UserPreferences : Type := {
  last_selected_watch : pyval;
  auto_convert_to_mp3 : pyval
}.

(** [UserPreferences()] with the dataclass defaults. *)
Definition default_preferences : UserPreferences :=
  {| last_selected_watch := PyNone; auto_convert_to_mp3 := PyBool true |}.

Definition to_json (self : UserPreferences) : gmap string pyval :=
  <["auto_convert_to_mp3" := auto_convert_to_mp3 self]>
    (<["last_selected_watch" := last_selected_watch self]> ∅).

(** [UserPreferences.from_json]; the payload is a [dict] or [None]. *)
Definition from_json (payload : option (gmap string pyval)) : UserPreferences :=
  match payload with
  | None => default_preferences
  | Some d =>
      if decide (d = ∅) then default_preferences
      else {| last_selected_watch := default PyNone (d !! "last_selected_watch");
              auto_convert_to_mp3 :=
                default (PyBool true) (d !! "auto_convert_to_mp3") |}
  end.

(** The configuration file: absent, or present and represented by what
    [json.loads] does on its text. *)
Inductive config_file : Type :=
| NoConfig
| Config (loads : result (option (gmap string pyval))).

Definition load_preferences (f : config_file) : result UserPreferences :=
  match f with
  | NoConfig => Ok default_preferences
  | Config (Ok payload) => Ok (from_json payload)
  | Config (Raise (JSONDecodeError _)) => Ok default_preferences
  | Config (Raise e) => Raise e
  end.

Definition save_preferences (prefs : UserPreferences) : config_file :=
  Config (Ok (Some (to_json prefs))).

End ConfigStore.

(** ** watch_profiles.py *)

Module WatchProfiles.

(** [s.lstrip(chars)], [s.rstrip(chars)], [s.strip(chars)], by the test
    [p] for membership in [chars]. *)
Fixpoint lstrip_by (p : ascii -> bool) (s : string) : string :=
  match s with
  | EmptyString => EmptyString
  | String ch s' => if p ch then lstrip_by p s' else s
  end.

Fixpoint rstrip_by (p : ascii -> bool) (s : string) : string :=
  match s with
  | EmptyString => EmptyString
  | String ch s' =>
      match rstrip_by p s' with
      | EmptyString => if p ch then EmptyString else String ch EmptyString
      | r => String ch r
      end
  end.

Fixpoint in_chars (chars : string) (ch : ascii) : bool :=
  match chars with
  | EmptyString => false
  | String c chars' => Ascii.eqb ch c || in_chars chars' ch
  end.

Definition strip_chars (chars s : string) : string :=
  rstrip_by (in_chars chars) (lstrip_by (in_chars chars) s).

Record WatchProfile : Type := {
  identifier : string;
  label : string;
  music_subdir : string;
  legacy_mount_paths : list string
}.

(** [WatchProfile.normalized_music_subdir]. *)
Definition normalized_music_subdir (self : WatchProfile) : string :=
  strip_chars "/" (music_subdir self).

Definition is_slash (ch : ascii) : bool := Ascii.eqb ch "/".

End WatchProfiles.

(** ** workout_manager.py: reading a compiled payload *)

Module WorkoutView.
Import WorkoutManager.

(** The [stepTypeKey] of a step. *)
Definition step_key (s : WorkoutStep) : string :=
  match s with
  | ExecutableStep e => stepTypeKey (stepType e)
  | RepeatGroup g => stepTypeKey (rg_stepType g)
  end.

(** The executable steps of a step list, those of a repeat block being
    its children. *)
Definition executable_steps_of (s : WorkoutStep) : list ExecutableStepDTO :=
  match s with
  | ExecutableStep e => [e]
  | RepeatGroup g => rg_workoutSteps g
  end.

Definition executable_steps (steps : list WorkoutStep) : list ExecutableStepDTO :=
  concat (map executable_steps_of steps).

Definition repeat_groups (steps : list WorkoutStep) : list RepeatGroupDTO :=
  concat (map (fun s => match s with
                        | RepeatGroup g => [g]
                        | ExecutableStep _ => []
                        end) steps).

(** The kinds of the top-level steps a template asks for. *)
Definition expected_keys (t : WorkoutTemplate) : list string :=
  ((if has_warmup t then ["warmup"] else [])
   ++ (if has_repeat t then ["repeat"] else [])
   ++ (if has_cooldown t then ["cooldown"] else []))%list.

(** The kind and the length, as the float [float(seconds)], of the
    executable steps a template asks for. *)
Definition as_float (z : Z) : spec_float := binary_normalize 53 1024 z 0 false.

Definition expected_timed (t : WorkoutTemplate) : list (string * spec_float) :=
  ((if has_warmup t then [("warmup", as_float (warmup_seconds t))] else [])
   ++ (if has_repeat t
       then [("interval", as_float (interval_seconds t));
             ("recovery", as_float (recovery_seconds t))]
       else [])
   ++ (if has_cooldown t then [("cooldown", as_float (cooldown_seconds t))] else []))%list.

Definition timed (e : ExecutableStepDTO) : string * spec_float :=
  (stepTypeKey (stepType e), endConditionValue e).

(** The sport tags [SPORT_TYPES] knows. *)
Definition known_sport (s : string) : bool :=
  String.eqb s "running" || String.eqb s "cycling" || String.eqb s "other".

(** Characters that cannot end up in a sanitized file name. *)
Definition path_unsafe_char (ch : ascii) : bool :=
  Ascii.eqb ch "/" || Ascii.eqb ch "\" || Ascii.eqb ch "." || isspace ch.

End WorkoutView.

(** * Properties *)

Module PyFacts.

Lemma eq_str_true v s : eq_str v s = true <-> v = PyStr s.
Proof.
  destruct v; simpl; split; try discriminate.
  - intros H. apply String.eqb_eq in H. by subst.
  - intros [= ->]. apply String.eqb_refl.
Qed.

Lemma eq_str_refl s : eq_str (PyStr s) s = true.
Proof. by apply eq_str_true. Qed.

Lemma float_of_int_ok z :
  (Z.abs z < float_max_int)%Z ->
  float_of_int z = Ok (binary_normalize 53 1024 z 0 false).
Proof.
  intros H. unfold float_of_int.
  destruct (Z.ltb_spec (Z.abs z) float_max_int); [done | lia].
Qed.

(** The bound is the first integer that rounds to infinity. *)
Example float_bound_rounds_to_infinity :
  binary_normalize 53 1024 float_max_int 0 false = S754_infinity false
  /\ binary_normalize 53 1024 (float_max_int - 1) 0 false
     = S754_finite false 9007199254740991 971.
Proof. split; vm_compute; reflexivity. Qed.

End PyFacts.

Module ManifestFacts.
Import ActivitySync PyFacts.

Abbreviation uploaded_record r sha256 upload_id now :=
  (record_update (uploaded_fields sha256 upload_id now) r).

Lemma mark_uploaded_payload m p h id now :
  _payload (mark_uploaded m p h id now)
  = <[p := uploaded_record (default ∅ (_payload m !! p)) h id now]> (_payload m).
Proof.
  unfold mark_uploaded, payload_setdefault.
  destruct (_payload m !! p) as [r|] eqn:E; simpl; [done|].
  by rewrite insert_insert_eq.
Qed.

Lemma mark_copied_payload m p h :
  _payload (mark_copied m p h)
  = <[p := record_setdefault "sha256" (PyStr h) (default ∅ (_payload m !! p))]>
      (_payload m).
Proof.
  unfold mark_copied, payload_setdefault.
  destruct (_payload m !! p) as [r|] eqn:E; simpl; [done|].
  by rewrite insert_insert_eq.
Qed.

Lemma uploaded_record_get r h id now :
  record_get "sha256" (uploaded_record r h id now) = PyStr h
  /\ record_get "uploaded" (uploaded_record r h id now) = PyBool true
  /\ record_get "upload_id" (uploaded_record r h id now) = of_opt_str id
  /\ record_get "last_uploaded" (uploaded_record r h id now) = PyStr now.
Proof.
  unfold record_get, record_update, uploaded_fields; simpl.
  repeat split; by simplify_map_eq.
Qed.

Lemma uploaded_record_nonempty r h id now : uploaded_record r h id now <> ∅.
Proof. unfold record_update, uploaded_fields; simpl. apply insert_non_empty. Qed.

Lemma is_uploaded_no_record m p h :
  _payload m !! p = None -> is_uploaded m p h = (false, PyNone).
Proof. intros E. unfold is_uploaded. by rewrite E. Qed.

Lemma is_uploaded_hash_differs m p h r :
  _payload m !! p = Some r -> r !! "sha256" <> Some (PyStr h) ->
  is_uploaded m p h = (false, PyNone).
Proof.
  intros E Hne. unfold is_uploaded. rewrite E.
  destruct (decide (r = ∅)); [done|].
  destruct (eq_str (record_get "sha256" r) h) eqn:Eh; [|done].
  apply eq_str_true in Eh. unfold record_get in Eh.
  destruct (r !! "sha256") as [v|]; simpl in Eh; [|done].
  by subst.
Qed.

Lemma is_uploaded_after_mark m p h id now :
  is_uploaded (mark_uploaded m p h id now) p h = (true, of_opt_str id).
Proof.
  unfold is_uploaded. rewrite mark_uploaded_payload, lookup_insert_eq.
  destruct (decide _) as [E|_]; [by apply uploaded_record_nonempty in E|].
  destruct (uploaded_record_get (default ∅ (_payload m !! p)) h id now)
    as (-> & -> & -> & _).
  by rewrite eq_str_refl.
Qed.

Lemma is_uploaded_after_mark_other_hash m p h h2 id now :
  h2 <> h -> is_uploaded (mark_uploaded m p h id now) p h2 = (false, PyNone).
Proof.
  intros Hne. eapply is_uploaded_hash_differs.
  - rewrite mark_uploaded_payload. apply lookup_insert_eq.
  - unfold record_update, uploaded_fields; simpl. simplify_map_eq. congruence.
Qed.

Lemma is_uploaded_ext m1 m2 p h :
  _payload m1 !! p = _payload m2 !! p -> is_uploaded m1 p h = is_uploaded m2 p h.
Proof. intros E. unfold is_uploaded. by rewrite E. Qed.

Lemma mark_uploaded_frame m p q h id now :
  p <> q -> _payload (mark_uploaded m p h id now) !! q = _payload m !! q.
Proof. intros Hne. rewrite mark_uploaded_payload. by apply lookup_insert_ne. Qed.

Lemma mark_copied_frame m p q h :
  p <> q -> _payload (mark_copied m p h) !! q = _payload m !! q.
Proof. intros Hne. rewrite mark_copied_payload. by apply lookup_insert_ne. Qed.

Lemma record_setdefault_lookup key v (r : record) k :
  record_setdefault key v r !! k
  = if decide (k = key) then Some (default v (r !! key)) else r !! k.
Proof.
  unfold record_setdefault. destruct (r !! key) as [w|] eqn:E.
  - case_decide; by subst.
  - case_decide; subst; by simplify_map_eq.
Qed.

(** Entries beyond the shorter of the two sequences are never looked at. *)
Lemma repository_mark_uploaded_take utcnow entries : forall ids tick m,
  repository_mark_uploaded utcnow tick m entries ids
  = repository_mark_uploaded utcnow tick m
      (take (length entries `min` length ids) entries)
      (take (length entries `min` length ids) ids).
Proof.
  induction entries as [|e entries IH]; intros [|id ids] tick m; simpl;
    [reflexivity | reflexivity | reflexivity | apply IH].
Qed.

Lemma repository_mark_uploaded_frame utcnow entries : forall ids tick m p,
  (forall e, e ∈ take (length entries `min` length ids) entries ->
             relative_path e <> p) ->
  _payload (repository_mark_uploaded utcnow tick m entries ids) !! p
  = _payload m !! p.
Proof.
  induction entries as [|e entries IH]; intros [|id ids] tick m p Hp; simpl; try done.
  simpl in Hp. rewrite IH.
  - apply mark_uploaded_frame, Hp. left.
  - intros e' He'. apply Hp. by right.
Qed.

Lemma repository_mark_uploaded_marks utcnow entries : forall ids tick m i e id,
  entries !! i = Some e -> ids !! i = Some id ->
  (forall j e', i < j -> j < length entries `min` length ids ->
                entries !! j = Some e' -> relative_path e' <> relative_path e) ->
  is_uploaded (repository_mark_uploaded utcnow tick m entries ids)
    (relative_path e) (sha256 e) = (true, of_opt_str id).
Proof.
  induction entries as [|e0 entries IH]; intros [|id0 ids] tick m i e id He Hid Hlater;
    try done.
  destruct i as [|i]; simpl in He, Hid.
  - injection He as ->. injection Hid as ->. simpl.
    erewrite is_uploaded_ext; [apply is_uploaded_after_mark|].
    apply repository_mark_uploaded_frame.
    intros e' He'. apply list_elem_of_lookup in He' as [j Hj].
    apply lookup_take_Some in Hj as [Hj Hlt].
    apply (Hlater (S j) e'); simpl; [lia | lia | done].
  - simpl. apply IH with (i := i); try done.
    intros j e' Hij Hj He'. apply (Hlater (S j) e'); simpl; [lia | lia | done].
Qed.

End ManifestFacts.

Module ManifestSpec.
Import ActivitySync PyFacts ManifestFacts.

(** C1. The lookup is gated by the hash: [is_uploaded] answers
    [(False, None)] when the path has no record or when the record's stored
    hash is not the one asked about; right after [mark_uploaded(p, h, id)]
    it answers [(True, id)] for [h] and [(False, None)] for any other
    hash. *)
Theorem is_uploaded_hash_gated (m : ActivityManifest) (p h h2 : string)
    (id : option string) (now : string) :
  h2 <> h ->
  (_payload m !! p = None -> is_uploaded m p h = (false, PyNone))
  /\ (forall r, _payload m !! p = Some r -> r !! "sha256" <> Some (PyStr h) ->
                is_uploaded m p h = (false, PyNone))
  /\ is_uploaded (mark_uploaded m p h id now) p h = (true, of_opt_str id)
  /\ is_uploaded (mark_uploaded m p h id now) p h2 = (false, PyNone).
Proof.
  intros Hne. repeat split.
  - apply is_uploaded_no_record.
  - intros r. apply is_uploaded_hash_differs.
  - apply is_uploaded_after_mark.
  - by apply is_uploaded_after_mark_other_hash.
Qed.

Lemma is_uploaded_hash_gated_witness :
  "bb" <> "aa"
  /\ is_uploaded (mark_uploaded empty_manifest "GARMIN/Activity/run.fit" "aa"
                    (Some "42") "2024-05-01T10:00:00")
       "GARMIN/Activity/run.fit" "aa" = (true, PyStr "42")
  /\ is_uploaded (mark_uploaded empty_manifest "GARMIN/Activity/run.fit" "aa"
                    (Some "42") "2024-05-01T10:00:00")
       "GARMIN/Activity/run.fit" "bb" = (false, PyNone).
Proof.
  split; [discriminate|].
  destruct (is_uploaded_hash_gated empty_manifest "GARMIN/Activity/run.fit" "aa" "bb"
              (Some "42") "2024-05-01T10:00:00") as (_ & _ & H1 & H2);
    [discriminate|].
  split; [exact H1 | exact H2].
Defined.

(** C7. [mark_copied] never downgrades: the record it leaves for the path
    holds the hash that was already recorded, and the given one only when
    none was; every other field is as it was. A record with
    [uploaded = True] keeps that flag and its upload id, and an
    [is_uploaded] answer of [True] stays what it was. *)
Theorem mark_copied_never_downgrades (m : ActivityManifest) (p h : string) :
  let r := default ∅ (_payload m !! p) in
  exists r',
    _payload (mark_copied m p h) !! p = Some r'
    /\ r' !! "sha256" = Some (default (PyStr h) (r !! "sha256"))
    /\ (forall k, k <> "sha256" -> r' !! k = r !! k)
    /\ (is_Some (r !! "sha256") -> r' = r)
    /\ (r !! "uploaded" = Some (PyBool true) ->
        r' !! "uploaded" = Some (PyBool true) /\ r' !! "upload_id" = r !! "upload_id")
    /\ (forall h0, (is_uploaded m p h0).1 = true ->
                   is_uploaded (mark_copied m p h) p h0 = is_uploaded m p h0).
Proof.
  intros r. exists (record_setdefault "sha256" (PyStr h) r).
  assert (Hkeep : is_Some (r !! "sha256") ->
                  record_setdefault "sha256" (PyStr h) r = r).
  { intros [v Hv]. unfold record_setdefault. by rewrite Hv. }
  split; [rewrite mark_copied_payload; apply lookup_insert_eq|].
  split; [rewrite record_setdefault_lookup; by case_decide|].
  split; [intros k Hk; rewrite record_setdefault_lookup; by case_decide|].
  split; [done|].
  split.
  { intros Hu. rewrite !record_setdefault_lookup. by repeat case_decide. }
  intros h0 Hup. unfold is_uploaded in *.
  rewrite mark_copied_payload, lookup_insert_eq. subst r.
  destruct (_payload m !! p) as [r|] eqn:E; simpl in *; [|done].
  destruct (decide (r = ∅)) as [|Hr]; [done|].
  destruct (eq_str (record_get "sha256" r) h0) eqn:Eh; [|done].
  rewrite Hkeep.
  - destruct (decide (r = ∅)); [done|]. by rewrite Eh.
  - apply eq_str_true in Eh. unfold record_get in Eh.
    destruct (r !! "sha256"); [done | discriminate].
Qed.

Lemma mark_copied_never_downgrades_witness :
  is_uploaded (mark_copied demo_manifest "GARMIN/Activity/run.fit" "cc")
    "GARMIN/Activity/run.fit" "aa" = (true, PyStr "42").
Proof.
  destruct (mark_copied_never_downgrades demo_manifest "GARMIN/Activity/run.fit" "cc")
    as (r' & _ & _ & _ & _ & _ & H).
  rewrite H; unfold demo_manifest; rewrite is_uploaded_after_mark; reflexivity.
Defined.

(** C8, as the code has it: a manifest built from a missing file, or from
    a file on which [json.loads] raises [JSONDecodeError], is constructed
    without an exception and is empty; [is_uploaded] then answers
    [(False, None)] for every path and hash. [_load] catches nothing else:
    any other exception raised while the file is read and decoded leaves
    the constructor as it is. *)
Theorem manifest_load_resilient :
  __init__ Absent = Ok {| _payload := ∅; file := Absent |}
  /\ (forall msg, __init__ (Present (Raise (JSONDecodeError msg)))
        = Ok {| _payload := ∅; file := Present (Raise (JSONDecodeError msg)) |})
  /\ (forall f m p h,
        f = Absent \/ (exists msg, f = Present (Raise (JSONDecodeError msg))) ->
        __init__ f = Ok m ->
        _payload m = ∅ /\ is_uploaded m p h = (false, PyNone))
  /\ (forall e, (forall msg, e <> JSONDecodeError msg) ->
                __init__ (Present (Raise e)) = Raise e).
Proof.
  split; [done|]. split; [done|]. split.
  - intros f m p h [->|[msg ->]] [= <-]; by split.
  - intros e He. unfold __init__, _load. simpl.
    destruct e; try reflexivity. by destruct (He msg).
Qed.

Lemma manifest_load_resilient_witness :
  (exists m, __init__ (Present (Raise (JSONDecodeError "Expecting value"))) = Ok m
     /\ is_uploaded m "GARMIN/Activity/run.fit" "aa" = (false, PyNone))
  /\ __init__ (Present (Raise (FileNotFoundError "activities_manifest.json")))
     = Raise (FileNotFoundError "activities_manifest.json").
Proof.
  destruct manifest_load_resilient as (_ & H1 & H2 & H3).
  split.
  - eexists. split; [apply H1|].
    eapply (H2 (Present (Raise (JSONDecodeError "Expecting value")))).
    + right. by eexists.
    + apply H1.
  - apply H3. intros msg. discriminate.
Defined.

(** C8 as stated fails: a manifest file whose bytes are not valid UTF-8 is
    a malformed document, [read_text] raises [UnicodeDecodeError] on it,
    and the constructor raises instead of giving an empty manifest. *)
Lemma manifest_load_undecodable_raises :
  __init__ (Present (Raise (UnicodeDecodeError "invalid start byte")))
  = Raise (UnicodeDecodeError "invalid start byte")
  /\ ~ (exists m, __init__ (Present (Raise (UnicodeDecodeError "invalid start byte")))
                  = Ok m).
Proof. split; [reflexivity|]. intros [m Hm]. discriminate Hm. Qed.

(** C9. [ActivityRepository.mark_uploaded] pairs the two sequences
    position by position and stops at the end of the shorter one: it is a
    total function of any two lists, its result is the one obtained from
    the first [min(len(entries), len(upload_ids))] elements of each, every
    entry among those is marked uploaded with the id at its position
    (unless a later pair of the run re-marks the same path), and a path of
    no such entry keeps its record. *)
Theorem repository_mark_uploaded_truncates (utcnow : nat -> string) (tick : nat)
    (m : ActivityManifest) (entries : list ActivityEntry)
    (upload_ids : list (option string)) :
  let n := length entries `min` length upload_ids in
  let m' := repository_mark_uploaded utcnow tick m entries upload_ids in
  m' = repository_mark_uploaded utcnow tick m (take n entries) (take n upload_ids)
  /\ (forall i e id,
        entries !! i = Some e -> upload_ids !! i = Some id ->
        (forall j e', i < j -> j < n -> entries !! j = Some e' ->
                      relative_path e' <> relative_path e) ->
        is_uploaded m' (relative_path e) (sha256 e) = (true, of_opt_str id))
  /\ (forall p, (forall e, e ∈ take n entries -> relative_path e <> p) ->
                _payload m' !! p = _payload m !! p).
Proof.
  intros n m'. split; [apply repository_mark_uploaded_take|]. split.
  - intros i e id. apply repository_mark_uploaded_marks.
  - intros p. apply repository_mark_uploaded_frame.
Qed.

Lemma repository_mark_uploaded_truncates_witness :
  is_uploaded demo_marked "GARMIN/Activity/a.fit" "aa" = (true, PyStr "1")
  /\ is_uploaded demo_marked "GARMIN/Activity/b.fit" "bb" = (true, PyNone)
  /\ _payload demo_marked !! "GARMIN/Activity/c.fit" = None.
Proof.
  destruct (repository_mark_uploaded_truncates demo_clock 0 empty_manifest
              demo_entries [Some "1"; None]) as (_ & Hmark & Hframe).
  unfold demo_marked.
  split; [|split].
  - apply (Hmark 0 (demo_entry "GARMIN/Activity/a.fit" "aa") (Some "1"));
      [reflexivity | reflexivity |].
    intros j e' Hlo Hhi He'. simpl in Hhi.
    assert (j = 1) as -> by lia. injection He' as <-. discriminate.
  - apply (Hmark 1 (demo_entry "GARMIN/Activity/b.fit" "bb") None);
      [reflexivity | reflexivity |].
    intros j e' Hlo Hhi He'. simpl in Hhi. lia.
  - rewrite Hframe; [reflexivity|].
    intros e He. simpl in He.
    apply elem_of_cons in He as [->|He]; [discriminate|].
    apply elem_of_cons in He as [->|He]; [discriminate|].
    by apply elem_of_nil in He.
Defined.

(** C10. Marking one path leaves the record of every other path as it
    was: for [p <> q] both [mark_uploaded(p, ...)] and [mark_copied(p, ...)]
    give the same lookup at [q], hence the same hash, uploaded flag, upload
    id and last-uploaded timestamp. *)
Theorem mark_other_path_unchanged (m : ActivityManifest) (p q h : string)
    (id : option string) (now : string) :
  p <> q ->
  _payload (mark_uploaded m p h id now) !! q = _payload m !! q
  /\ _payload (mark_copied m p h) !! q = _payload m !! q.
Proof.
  intros Hne. split; [by apply mark_uploaded_frame | by apply mark_copied_frame].
Qed.

Lemma mark_other_path_unchanged_witness :
  "GARMIN/Activity/b.fit" <> "GARMIN/Activity/run.fit"
  /\ _payload (mark_uploaded demo_manifest "GARMIN/Activity/b.fit" "bb" None
                 "2024-05-02T08:00:00")
       !! "GARMIN/Activity/run.fit" = _payload demo_manifest !! "GARMIN/Activity/run.fit"
  /\ _payload (mark_copied demo_manifest "GARMIN/Activity/b.fit" "bb")
       !! "GARMIN/Activity/run.fit" = _payload demo_manifest !! "GARMIN/Activity/run.fit".
Proof.
  split; [discriminate|].
  apply (mark_other_path_unchanged demo_manifest "GARMIN/Activity/b.fit"
           "GARMIN/Activity/run.fit" "bb" None "2024-05-02T08:00:00").
  discriminate.
Defined.

End ManifestSpec.

Module WorkoutFacts.
Import WorkoutManager PyFacts.

Lemma step_type_lookup :
  STEP_TYPES !! "warmup"
    = Some {| stepTypeId := 1; stepTypeKey := "warmup"; step_displayOrder := 1 |}
  /\ STEP_TYPES !! "cooldown"
    = Some {| stepTypeId := 2; stepTypeKey := "cooldown"; step_displayOrder := 2 |}
  /\ STEP_TYPES !! "interval"
    = Some {| stepTypeId := 3; stepTypeKey := "interval"; step_displayOrder := 3 |}
  /\ STEP_TYPES !! "recovery"
    = Some {| stepTypeId := 4; stepTypeKey := "recovery"; step_displayOrder := 4 |}
  /\ STEP_TYPES !! "repeat"
    = Some {| stepTypeId := 6; stepTypeKey := "repeat"; step_displayOrder := 6 |}.
Proof. repeat split; vm_compute; reflexivity. Qed.

Lemma sport_type_running :
  SPORT_TYPES !! "running"
  = Some {| sportTypeId := 1; sportTypeKey := "running"; sport_displayOrder := 1 |}.
Proof. vm_compute; reflexivity. Qed.

(** An executable step of a known type exists exactly when the seconds
    convert to a float, and then carries the order it was given. *)
Lemma executable_step_inv order key seconds st :
  STEP_TYPES !! key = Some st ->
  (float_convertible seconds ->
   exists e, executable_step order key seconds = Ok e)
  /\ (forall e, executable_step order key seconds = Ok e ->
                stepOrder e = order /\ stepType e = st
                /\ float_convertible seconds).
Proof.
  intros Hst. unfold executable_step, getitem, float_of_int, float_convertible.
  rewrite Hst. simpl.
  destruct (Z.ltb_spec (Z.abs seconds) float_max_int) as [Hlt|Hge]; simpl.
  - split; [eauto|]. by intros e [= <-].
  - split; [lia | discriminate].
Qed.

Lemma build_repeat_block_inv order t :
  (float_convertible (interval_seconds t) -> float_convertible (recovery_seconds t) ->
   float_convertible (repeats t) ->
   exists b, build_repeat_block order t = Ok (b, (order + 2)%Z))
  /\ (forall b order', build_repeat_block order t = Ok (b, order') ->
        order' = (order + 2)%Z
        /\ float_convertible (interval_seconds t)
        /\ float_convertible (recovery_seconds t)
        /\ float_convertible (repeats t)
        /\ exists g, b = RepeatGroup g
             /\ rg_stepOrder g = order
             /\ map stepOrder (rg_workoutSteps g) = [(order + 1)%Z; (order + 2)%Z]
             /\ map (fun e => stepTypeKey (stepType e)) (rg_workoutSteps g)
                = ["interval"; "recovery"]
             /\ numberOfIterations g = repeats t).
Proof.
  destruct step_type_lookup as (_ & _ & Hi & Hr & Hp).
  destruct (executable_step_inv (order + 1) "interval" (interval_seconds t) _ Hi)
    as [Hi1 Hi2].
  destruct (executable_step_inv (order + 2) "recovery" (recovery_seconds t) _ Hr)
    as [Hr1 Hr2].
  unfold build_repeat_block, getitem. rewrite Hp. simpl. split.
  - intros Ci Cr Cp. destruct (Hi1 Ci) as [ei ->], (Hr1 Cr) as [er ->]. simpl.
    rewrite (float_of_int_ok _ Cp). simpl. eauto.
  - intros b order'.
    destruct (executable_step (order + 1) "interval" (interval_seconds t))
      as [ei|] eqn:Ei; simpl; [|discriminate].
    destruct (executable_step (order + 2) "recovery" (recovery_seconds t))
      as [er|] eqn:Er; simpl; [|discriminate].
    unfold float_of_int.
    destruct (Z.ltb_spec (Z.abs (repeats t)) float_max_int) as [Hlt|Hge]; simpl;
      [|discriminate].
    intros [= <- <-].
    destruct (Hi2 _ eq_refl) as (Oi & Ti & Ci), (Hr2 _ eq_refl) as (Or & Tr & Cr).
    repeat split; try done.
    eexists. split; [reflexivity|]. simpl. rewrite Oi, Or, Ti, Tr. done.
Qed.

(** What [build_payload] returns whenever it returns. *)
Lemma build_payload_inv t p :
  build_payload t = Ok p ->
  compilable t
  /\ exists steps,
      p = {| workoutName := name t;
             sportType := default {| sportTypeId := 1; sportTypeKey := "running";
                                     sport_displayOrder := 1 |}
                            (SPORT_TYPES !! sport t);
             estimatedDurationInSecs := estimated_duration t;
             workoutSegments :=
               [ {| segmentOrder := 1;
                    seg_sportType :=
                      default {| sportTypeId := 1; sportTypeKey := "running";
                                 sport_displayOrder := 1 |}
                        (SPORT_TYPES !! sport t);
                    workoutSteps := steps |} ] |}
      /\ length steps = expected_step_count t
      /\ existsb is_repeat_block steps = has_repeat t
      /\ step_orders steps = emitted_orders t.
Proof.
  destruct step_type_lookup as (Hw & Hc & _).
  unfold build_payload, getitem. rewrite sport_type_running. simpl.
  unfold compilable, expected_step_count, emitted_orders, cooldown_order, repeat_order.
  fold (has_warmup t) (has_repeat t) (has_cooldown t).
  destruct (has_warmup t) eqn:W; simpl.
  - destruct (executable_step 1 "warmup" (warmup_seconds t)) as [ew|] eqn:Ew; simpl;
      [|discriminate].
    destruct (proj2 (executable_step_inv _ _ _ _ Hw) _ Ew) as (Ow & _ & Cw).
    destruct (has_repeat t) eqn:R; simpl.
    + destruct (build_repeat_block (1 + 1) t) as [[b o]|] eqn:Eb; simpl; [|discriminate].
      destruct (proj2 (build_repeat_block_inv _ _) _ _ Eb)
        as (-> & Ci & Cr & Cp & g & -> & Og & Och & _ & _).
      destruct (has_cooldown t) eqn:C; simpl.
      * destruct (executable_step (1 + 1 + 2) "cooldown" (cooldown_seconds t))
          as [ec|] eqn:Ec; simpl; [|discriminate].
        destruct (proj2 (executable_step_inv _ _ _ _ Hc) _ Ec) as (Oc & _ & Cc).
        intros [= <-]. split; [done|]. eexists. split; [reflexivity|].
        unfold step_orders. simpl. rewrite Ow, Og, Och, Oc. done.
      * intros [= <-]. split; [done|]. eexists. split; [reflexivity|].
        unfold step_orders. simpl. rewrite Ow, Og, Och. done.
    + destruct (has_cooldown t) eqn:C; simpl.
      * destruct (executable_step (1 + 1) "cooldown" (cooldown_seconds t))
          as [ec|] eqn:Ec; simpl; [|discriminate].
        destruct (proj2 (executable_step_inv _ _ _ _ Hc) _ Ec) as (Oc & _ & Cc).
        intros [= <-]. split; [done|]. eexists. split; [reflexivity|].
        unfold step_orders. simpl. rewrite Ow, Oc. done.
      * intros [= <-]. split; [done|]. eexists. split; [reflexivity|].
        unfold step_orders. simpl. rewrite Ow. done.
  - destruct (has_repeat t) eqn:R; simpl.
    + destruct (build_repeat_block 1 t) as [[b o]|] eqn:Eb; simpl; [|discriminate].
      destruct (proj2 (build_repeat_block_inv _ _) _ _ Eb)
        as (-> & Ci & Cr & Cp & g & -> & Og & Och & _ & _).
      destruct (has_cooldown t) eqn:C; simpl.
      * destruct (executable_step (1 + 2) "cooldown" (cooldown_seconds t))
          as [ec|] eqn:Ec; simpl; [|discriminate].
        destruct (proj2 (executable_step_inv _ _ _ _ Hc) _ Ec) as (Oc & _ & Cc).
        intros [= <-]. split; [done|]. eexists. split; [reflexivity|].
        unfold step_orders. simpl. rewrite Og, Och, Oc. done.
      * intros [= <-]. split; [done|]. eexists. split; [reflexivity|].
        unfold step_orders. simpl. rewrite Og, Och. done.
    + destruct (has_cooldown t) eqn:C; simpl.
      * destruct (executable_step 1 "cooldown" (cooldown_seconds t))
          as [ec|] eqn:Ec; simpl; [|discriminate].
        destruct (proj2 (executable_step_inv _ _ _ _ Hc) _ Ec) as (Oc & _ & Cc).
        intros [= <-]. split; [done|]. eexists. split; [reflexivity|].
        unfold step_orders. simpl. rewrite Oc. done.
      * intros [= <-]. split; [done|]. eexists. split; [reflexivity|]. done.
Qed.

(** [build_payload] returns for every template whose emitted values
    convert to floats. *)
Lemma build_payload_total t : compilable t -> exists p, build_payload t = Ok p.
Proof.
  destruct step_type_lookup as (Hw & Hc & _).
  intros (Cw & Cr & Cc).
  unfold build_payload, getitem. rewrite sport_type_running. simpl.
  fold (has_warmup t) (has_repeat t) (has_cooldown t).
  destruct (has_warmup t) eqn:W; simpl.
  - destruct (proj1 (executable_step_inv 1 _ _ _ Hw) (Cw eq_refl)) as [ew ->]. simpl.
    destruct (has_repeat t) eqn:R; simpl.
    + destruct (Cr eq_refl) as (C1 & C2 & C3).
      destruct (proj1 (build_repeat_block_inv (1 + 1) t) C1 C2 C3) as [b ->]. simpl.
      destruct (has_cooldown t) eqn:C; simpl; [|eauto].
      destruct (proj1 (executable_step_inv (1 + 1 + 2) _ _ _ Hc) (Cc eq_refl)) as [ec ->].
      simpl. eauto.
    + destruct (has_cooldown t) eqn:C; simpl; [|eauto].
      destruct (proj1 (executable_step_inv (1 + 1) _ _ _ Hc) (Cc eq_refl)) as [ec ->].
      simpl. eauto.
  - destruct (has_repeat t) eqn:R; simpl.
    + destruct (Cr eq_refl) as (C1 & C2 & C3).
      destruct (proj1 (build_repeat_block_inv 1 t) C1 C2 C3) as [b ->]. simpl.
      destruct (has_cooldown t) eqn:C; simpl; [|eauto].
      destruct (proj1 (executable_step_inv (1 + 2) _ _ _ Hc) (Cc eq_refl)) as [ec ->].
      simpl. eauto.
    + destruct (has_cooldown t) eqn:C; simpl; [|eauto].
      destruct (proj1 (executable_step_inv 1 _ _ _ Hc) (Cc eq_refl)) as [ec ->].
      simpl. eauto.
Qed.

Lemma clamp0_max z : clamp0 z = Z.max 0 z.
Proof. unfold clamp0. destruct (Z.ltb_spec z 0); lia. Qed.

End WorkoutFacts.

Module WorkoutSpec.
Import WorkoutManager PyFacts WorkoutFacts.

(** On the scenario template the repeat block's recovery child and the
    cooldown step both carry order index 4. *)
Lemma scenario_payload_orders :
  exists p seg,
    build_payload scenario_template = Ok p
    /\ workoutSegments p = [seg]
    /\ step_orders (workoutSteps seg) = [1; 2; 3; 4; 4]%Z.
Proof.
  destruct (build_payload_total scenario_template) as [p Hp].
  { unfold compilable, float_convertible. cbn. repeat split; reflexivity. }
  destruct (build_payload_inv _ _ Hp) as (_ & steps & -> & _ & _ & Ho).
  do 2 eexists. split; [exact Hp|]. split; [reflexivity|]. exact Ho.
Qed.

(** C2. The running counter starts at 1 and the repeat block's parent
    and children get [n], [n+1], [n+2], but [build_repeat_block] hands back
    [n+2] as the next index, so a cooldown after a repeat block repeats the
    recovery child's index: the emitted indices are not distinct. On the
    template (warmup 300, interval 60, recovery 60, repeats 6, cooldown
    300) they are 1, 2, 3, 4, 4. *)
Theorem build_payload_cooldown_reuses_order :
  exists p seg,
    build_payload scenario_template = Ok p
    /\ workoutSegments p = [seg]
    /\ step_orders (workoutSteps seg) = [1; 2; 3; 4; 4]%Z
    /\ ~ NoDup (step_orders (workoutSteps seg)).
Proof.
  destruct scenario_payload_orders as (p & seg & Hp & Hs & Ho).
  exists p, seg. repeat split; try done.
  rewrite Ho. intros Hnd.
  do 3 apply NoDup_cons_1_2 in Hnd.
  apply NoDup_cons_1_1 in Hnd. apply Hnd. left.
Qed.

(** C3. The payload has one segment, of order 1, and the number of its
    top-level steps is 1{warmup>0} + 1{repeats>0 and interval>0} +
    1{cooldown>0}; a repeat block is among them exactly when repeats>0 and
    interval>0, so never when repeats = 0; an all-zero template compiles,
    to an empty step list. *)
Theorem build_payload_step_count :
  (forall t p,
     build_payload t = Ok p ->
     exists seg,
       workoutSegments p = [seg]
       /\ segmentOrder seg = 1%Z
       /\ length (workoutSteps seg) = expected_step_count t
       /\ existsb is_repeat_block (workoutSteps seg)
          = ((0 <? repeats t)%Z && (0 <? interval_seconds t)%Z)
       /\ (repeats t = 0%Z ->
           Forall (fun s => is_repeat_block s = false) (workoutSteps seg)))
  /\ (forall t, compilable t -> exists p, build_payload t = Ok p)
  /\ (forall n s,
        exists p seg,
          build_payload (zero_template n s) = Ok p
          /\ workoutSegments p = [seg]
          /\ segmentOrder seg = 1%Z
          /\ workoutSteps seg = []).
Proof.
  split; [|split].
  - intros t p Hp.
    destruct (build_payload_inv _ _ Hp) as (_ & steps & -> & Hlen & Hrep & _).
    eexists. split; [reflexivity|]. simpl. repeat split; try done.
    intros H0. apply Forall_forall. intros s Hs.
    destruct (is_repeat_block s) eqn:Es; [|done].
    assert (existsb is_repeat_block steps = true) as Hex.
    { apply existsb_exists. exists s. split; [by apply list_elem_of_In | done]. }
    rewrite Hrep in Hex. unfold has_repeat in Hex. rewrite H0 in Hex. discriminate.
  - apply build_payload_total.
  - intros n s.
    destruct (build_payload_total (zero_template n s)) as [p Hp].
    { unfold compilable. cbn. repeat split; discriminate. }
    destruct (build_payload_inv _ _ Hp) as (_ & steps & -> & Hlen & _).
    do 2 eexists. split; [exact Hp|]. split; [reflexivity|]. split; [reflexivity|].
    simpl. by destruct steps.
Qed.

Lemma build_payload_step_count_witness :
  exists p seg,
    build_payload scenario_template = Ok p
    /\ workoutSegments p = [seg]
    /\ length (workoutSteps seg) = 3.
Proof.
  destruct build_payload_step_count as (Hcount & Htotal & _).
  destruct (Htotal scenario_template) as [p Hp].
  { unfold compilable, float_convertible. cbn. repeat split; reflexivity. }
  destruct (Hcount scenario_template p Hp) as (seg & Hs & _ & Hlen & _).
  exists p, seg. repeat split; try done.
Defined.

(** C6. [estimated_duration] is warmup + cooldown + repeats * (interval +
    recovery) with every negative component counted as 0; it is 1320 on
    (warmup 300, interval 60, recovery 60, repeats 6, cooldown 300); and
    the payload's [estimatedDurationInSecs] is that value. *)
Theorem estimated_duration_correct :
  (forall t, estimated_duration t = estimated_duration_spec t)
  /\ (forall t,
        (0 <= warmup_seconds t)%Z -> (0 <= cooldown_seconds t)%Z ->
        (0 <= repeats t)%Z -> (0 <= interval_seconds t)%Z ->
        (0 <= recovery_seconds t)%Z ->
        estimated_duration t
        = (warmup_seconds t + cooldown_seconds t
           + repeats t * (interval_seconds t + recovery_seconds t))%Z)
  /\ (forall n s,
        estimated_duration
          {| name := n; sport := s; warmup_seconds := 300; interval_seconds := 60;
             recovery_seconds := 60; repeats := 6; cooldown_seconds := 300 |}
        = 1320%Z)
  /\ (forall t p, build_payload t = Ok p ->
                  estimatedDurationInSecs p = estimated_duration_spec t).
Proof.
  assert (Hspec : forall t, estimated_duration t = estimated_duration_spec t).
  { intros t. unfold estimated_duration, estimated_duration_spec.
    rewrite !clamp0_max. lia. }
  split; [exact Hspec|]. split; [|split].
  - intros t Hw Hc Hr Hi Hv. unfold estimated_duration. lia.
  - reflexivity.
  - intros t p Hp.
    destruct (build_payload_inv _ _ Hp) as (_ & steps & -> & _). simpl. apply Hspec.
Qed.

Lemma estimated_duration_correct_witness :
  exists p, build_payload scenario_template = Ok p
            /\ estimatedDurationInSecs p = 1320%Z.
Proof.
  destruct estimated_duration_correct as (_ & _ & _ & H).
  destruct (build_payload_total scenario_template) as [p Hp].
  { unfold compilable, float_convertible. cbn. repeat split; reflexivity. }
  exists p. split; [exact Hp|]. rewrite (H _ _ Hp). reflexivity.
Defined.

End WorkoutSpec.

Module FilenameFacts.
Import WorkoutManager.

Lemma append_nil_l (s : string) : "" ++ s = s.
Proof. reflexivity. Qed.

Lemma append_cons ch (a b : string) : String ch a ++ b = String ch (a ++ b).
Proof. reflexivity. Qed.

Lemma lstrip_spec s :
  exists pre, s = pre ++ lstrip s
    /\ str_forallb isspace pre = true
    /\ is_space_opt (first_char (lstrip s)) = false.
Proof.
  induction s as [|ch s (pre & Hs & Hpre & Hfirst)]; simpl.
  - by exists "".
  - destruct (isspace ch) eqn:E.
    + exists (String ch pre). simpl. rewrite E, Hpre.
      by rewrite append_cons, <- Hs.
    + exists "". simpl. by rewrite E.
Qed.

Lemma rstrip_spec s :
  exists post, s = rstrip s ++ post
    /\ str_forallb isspace post = true
    /\ is_space_opt (last_char (rstrip s)) = false.
Proof.
  induction s as [|ch s (post & Hs & Hpost & Hlast)]; simpl.
  - by exists "".
  - destruct (rstrip s) as [|d r] eqn:Er.
    + rewrite append_nil_l in Hs. subst post.
      destruct (isspace ch) eqn:E.
      * exists (String ch s). simpl. by rewrite E, Hpost.
      * exists s. simpl. by rewrite E, append_cons.
    + exists post. rewrite append_cons, <- Hs. done.
Qed.

Lemma rstrip_first_char s :
  is_space_opt (first_char s) = false -> is_space_opt (first_char (rstrip s)) = false.
Proof.
  destruct s as [|ch s]; simpl; [done|]. intros E.
  destruct (rstrip s); [|done]. by rewrite E.
Qed.

(** [strip] removes a run of whitespace at each end and stops at the
    first and last characters that are not whitespace. *)
Lemma strip_spec s :
  exists pre post,
    s = pre ++ strip s ++ post
    /\ str_forallb isspace pre = true
    /\ str_forallb isspace post = true
    /\ is_space_opt (first_char (strip s)) = false
    /\ is_space_opt (last_char (strip s)) = false.
Proof.
  destruct (lstrip_spec s) as (pre & Hs & Hpre & Hfirst).
  destruct (rstrip_spec (lstrip s)) as (post & Hl & Hpost & Hlast).
  exists pre, post. unfold strip. repeat split; try done.
  - by rewrite <- Hl.
  - by apply rstrip_first_char.
Qed.

Lemma str_map_length f s : String.length (str_map f s) = String.length s.
Proof. induction s as [|ch s IH]; simpl; [done | by rewrite IH]. Qed.

Lemma str_map_get f s : forall i,
  String.get i (str_map f s) = option_map f (String.get i s).
Proof. induction s as [|ch s IH]; intros [|i]; simpl; auto. Qed.

Lemma str_map_empty f s : str_map f s = "" <-> s = "".
Proof. destruct s; simpl; split; done. Qed.

Lemma safe_char_valid ch : valid_char (safe_char ch) = true.
Proof.
  unfold safe_char. fold (valid_char ch).
  destruct (valid_char ch) eqn:E; [done | reflexivity].
Qed.

Lemma str_map_safe_valid s : str_forallb valid_char (str_map safe_char s) = true.
Proof.
  induction s as [|ch s IH]; cbn [str_map str_forallb]; [done|].
  by rewrite safe_char_valid, IH.
Qed.

Lemma sanitize_filename_cases name :
  (strip name = "" /\ sanitize_filename name = "workout")
  \/ (strip name <> "" /\ sanitize_filename name = str_map safe_char (strip name)).
Proof.
  unfold sanitize_filename.
  destruct (String.eqb_spec (str_map safe_char (strip name)) "") as [E|E].
  - left. split; [by apply str_map_empty in E | done].
  - right. split; [|done]. intros H. apply E. by rewrite H.
Qed.

End FilenameFacts.

Module FilenameSpec.
Import WorkoutManager FilenameFacts.

(** C4, as the code has it: the name is first stripped of leading and
    trailing whitespace; each remaining character that is not alphanumeric,
    ['-'] or ['_'] becomes ['_'] and the others stay; the fallback
    ["workout"] is returned only when nothing remains after stripping. So
    ["Tempo Tuesday!"] gives ["Tempo_Tuesday_"] and ["???"] gives ["___"];
    the result is never empty and holds valid characters only. *)
Theorem sanitize_filename_spec (name : string) :
  (exists pre post,
      name = pre ++ strip name ++ post
      /\ str_forallb isspace pre = true
      /\ str_forallb isspace post = true
      /\ is_space_opt (first_char (strip name)) = false
      /\ is_space_opt (last_char (strip name)) = false)
  /\ (strip name = "" -> sanitize_filename name = "workout")
  /\ (strip name <> "" ->
      String.length (sanitize_filename name) = String.length (strip name)
      /\ forall i ch,
           String.get i (strip name) = Some ch ->
           String.get i (sanitize_filename name)
           = Some (if isalnum ch || (Ascii.eqb ch "-" || Ascii.eqb ch "_")
                   then ch else "_"%char))
  /\ sanitize_filename name <> ""
  /\ str_forallb valid_char (sanitize_filename name) = true
  /\ sanitize_filename "Tempo Tuesday!" = "Tempo_Tuesday_"
  /\ sanitize_filename "???" = "___".
Proof.
  split; [apply strip_spec|].
  destruct (sanitize_filename_cases name) as [[E ->]|[E ->]].
  - repeat split; try done.
  - repeat split; try done.
    + apply str_map_length.
    + intros i ch Hi. by rewrite str_map_get, Hi.
    + intros H. by apply str_map_empty in H.
    + apply str_map_safe_valid.
Qed.

Lemma sanitize_filename_spec_witness :
  strip "  a b " <> ""
  /\ String.length (sanitize_filename "  a b ") = 3
  /\ String.get 1 (sanitize_filename "  a b ") = Some "_"%char.
Proof.
  destruct (sanitize_filename_spec "  a b ") as (_ & _ & H & _).
  assert (Hne : strip "  a b " <> "") by discriminate.
  split; [exact Hne|].
  destruct (H Hne) as [Hlen Hget].
  split; [exact Hlen|].
  apply (Hget 1 " "%char). reflexivity.
Defined.

(** C4 as stated fails: a name made of invalid characters only is not
    replaced by the fallback. *)
Lemma sanitize_filename_all_invalid :
  sanitize_filename "???" = "___" /\ sanitize_filename "???" <> "workout".
Proof. split; [reflexivity | discriminate]. Qed.

End FilenameSpec.

Module SyncFacts.
Import SyncService.

Lemma gio_copies_app t1 t2 : gio_copies (t1 ++ t2) = (gio_copies t1 ++ gio_copies t2)%list.
Proof. apply List.filter_app. Qed.

Lemma gio_removes_app t1 t2 :
  gio_removes (t1 ++ t2) = (gio_removes t1 ++ gio_removes t2)%list.
Proof. apply List.filter_app. Qed.





(** [wipe_directory] issues a removal for every entry and returns. *)
Lemma wipe_directory_continues path log entries :
  exists t,
    wipe_directory path log entries = (t, Ok tt)
    /\ gio_removes t = map (remove_command path) entries.
Proof.
  unfold wipe_directory. induction entries as [|[entry res] entries (t & IH & R)]; simpl.
  - by exists [].
  - rewrite IH. unfold gio_remove, _run, remove_command.
    unfold gio_removes in *.
    destruct log; cbn; destruct (ok res); cbn; eexists; (split; [reflexivity|]);
      cbn; by rewrite R.
Qed.

End SyncFacts.

Module SyncSpec.
Import SyncService SyncFacts.




End SyncSpec.

(** * Further properties *)

Module ManifestMore.
Import ActivitySync PyFacts ManifestFacts.

Lemma is_uploaded_true_inv m p h :
  (is_uploaded m p h).1 = true ->
  exists r, _payload m !! p = Some r
    /\ r !! "sha256" = Some (PyStr h)
    /\ truthy (record_get "uploaded" r) = true.
Proof.
  unfold is_uploaded.
  destruct (_payload m !! p) as [r|] eqn:E; [|discriminate].
  destruct (decide (r = ∅)); [discriminate|].
  destruct (eq_str (record_get "sha256" r) h) eqn:Eh; [|discriminate].
  simpl. intros Hu. exists r. repeat split; try done.
  apply eq_str_true in Eh. unfold record_get in Eh.
  destruct (r !! "sha256") as [v|]; simpl in Eh; [by subst | discriminate].
Qed.

(** The flag [is_uploaded] returns is [True] exactly when the path has a
    record whose stored hash is the given string and whose [uploaded]
    field is truthy. *)
Theorem is_uploaded_true_iff (m : ActivityManifest) (p h : string) :
  (is_uploaded m p h).1 = true
  <-> exists r, _payload m !! p = Some r
        /\ r !! "sha256" = Some (PyStr h)
        /\ truthy (record_get "uploaded" r) = true.
Proof.
  split; [apply is_uploaded_true_inv|].
  unfold is_uploaded. intros (r & -> & Hs & Hu).
  destruct (decide (r = ∅)) as [->|_]; [by rewrite lookup_empty in Hs|].
  unfold record_get at 1. rewrite Hs. simpl. by rewrite String.eqb_refl.
Qed.

Lemma is_uploaded_true_iff_witness :
  (is_uploaded demo_manifest "GARMIN/Activity/run.fit" "aa").1 = true.
Proof.
  apply (is_uploaded_true_iff demo_manifest "GARMIN/Activity/run.fit" "aa").
  eexists. split; [|split].
  - unfold demo_manifest. rewrite mark_uploaded_payload. apply lookup_insert_eq.
  - reflexivity.
  - reflexivity.
Defined.

Lemma record_setdefault_twice key v w (r : record) :
  record_setdefault key w (record_setdefault key v r) = record_setdefault key v r.
Proof.
  unfold record_setdefault at 1. rewrite record_setdefault_lookup.
  by rewrite decide_True.
Qed.

Lemma manifest_eq (m1 m2 : ActivityManifest) :
  _payload m1 = _payload m2 -> file m1 = file m2 -> m1 = m2.
Proof. destruct m1, m2; simpl; by intros -> ->. Qed.

Lemma mark_copied_file m p h :
  file (mark_copied m p h) = Present (Ok (_payload (mark_copied m p h))).
Proof. unfold mark_copied. by destruct (payload_setdefault p (_payload m)). Qed.

Lemma mark_uploaded_file m p h id now :
  file (mark_uploaded m p h id now)
  = Present (Ok (_payload (mark_uploaded m p h id now))).
Proof. unfold mark_uploaded. by destruct (payload_setdefault p (_payload m)). Qed.

(** A second [mark_copied] of the same path changes nothing, whatever
    hash it is given: the first recorded hash stays. *)
Theorem mark_copied_idempotent (m : ActivityManifest) (p h h' : string) :
  mark_copied (mark_copied m p h) p h' = mark_copied m p h.
Proof.
  assert (Hp : _payload (mark_copied (mark_copied m p h) p h')
               = _payload (mark_copied m p h)).
  { rewrite (mark_copied_payload (mark_copied m p h)).
    rewrite mark_copied_payload, lookup_insert_eq. simpl.
    by rewrite record_setdefault_twice, insert_insert_eq. }
  apply manifest_eq; [exact Hp|]. by rewrite !mark_copied_file, Hp.
Qed.

(** Copying does not mark as uploaded: after [mark_copied] of a path that
    had no record, [is_uploaded] answers [(False, None)] for every hash. *)
Theorem mark_copied_fresh_not_uploaded (m : ActivityManifest) (p h h' : string) :
  _payload m !! p = None ->
  is_uploaded (mark_copied m p h) p h' = (false, PyNone).
Proof.
  intros E. unfold is_uploaded. rewrite mark_copied_payload, lookup_insert_eq, E.
  simpl. unfold record_setdefault. rewrite lookup_empty.
  destruct (decide _); [done|].
  unfold record_get. rewrite lookup_insert_eq. simpl.
  destruct (String.eqb h h'); simpl; [|done].
  by rewrite lookup_insert_ne.
Qed.

Lemma mark_copied_fresh_not_uploaded_witness :
  is_uploaded (mark_copied empty_manifest "GARMIN/Activity/run.fit" "aa")
    "GARMIN/Activity/run.fit" "aa" = (false, PyNone).
Proof.
  apply (mark_copied_fresh_not_uploaded empty_manifest). reflexivity.
Defined.

(** Marking never drops a record: the paths of the manifest afterwards are
    the old ones and the marked one. *)
Theorem marks_extend_domain (m : ActivityManifest) (p h : string)
    (id : option string) (now : string) :
  dom (_payload (mark_uploaded m p h id now)) = {[p]} ∪ dom (_payload m)
  /\ dom (_payload (mark_copied m p h)) = {[p]} ∪ dom (_payload m).
Proof.
  rewrite mark_uploaded_payload, mark_copied_payload.
  split; apply dom_insert_L.
Qed.

Lemma two_marks_payload m p q h h' id id' t1 t2 :
  p <> q ->
  _payload (mark_uploaded (mark_uploaded m p h id t1) q h' id' t2)
  = <[q := uploaded_record (default ∅ (_payload m !! q)) h' id' t2]>
      (<[p := uploaded_record (default ∅ (_payload m !! p)) h id t1]> (_payload m)).
Proof.
  intros Hne. rewrite (mark_uploaded_payload (mark_uploaded m p h id t1)).
  rewrite mark_uploaded_frame by done. by rewrite mark_uploaded_payload.
Qed.

Lemma uploaded_record_lookup_other (r : record) h id t1 t2 key :
  key <> "last_uploaded" ->
  uploaded_record r h id t1 !! key = uploaded_record r h id t2 !! key.
Proof.
  intros Hk. unfold record_update, uploaded_fields. simpl.
  by rewrite !(lookup_insert_ne _ "last_uploaded").
Qed.

Lemma uploaded_record_last (r : record) h id t :
  uploaded_record r h id t !! "last_uploaded" = Some (PyStr t).
Proof. unfold record_update, uploaded_fields. simpl. apply lookup_insert_eq. Qed.

Lemma is_uploaded_of_uploaded_record x path hash (r : record) h id t :
  _payload x !! path = Some (uploaded_record r h id t) ->
  is_uploaded x path hash
  = if eq_str (PyStr h) hash then (true, of_opt_str id) else (false, PyNone).
Proof.
  intros E. unfold is_uploaded. rewrite E.
  destruct (decide _) as [E0|_]; [by apply uploaded_record_nonempty in E0|].
  destruct (uploaded_record_get r h id t) as (-> & -> & -> & _).
  by destruct (eq_str (PyStr h) hash).
Qed.

(** Two uploads of different paths, recorded one after the other. Each
    call reads the clock itself, so the order decides which path gets the
    earlier [last_uploaded]; nothing else depends on it: both orders give
    the same paths, the same value for every other key of every record,
    and the same answer of [is_uploaded] for every path and hash. The two
    payloads are equal exactly when the two clock readings are. *)
Theorem mark_uploaded_either_order (m : ActivityManifest) (p q h h' : string)
    (id id' : option string) (utcnow : nat -> string) (tick : nat) :
  p <> q ->
  let pq := mark_uploaded (mark_uploaded m p h id (utcnow tick))
              q h' id' (utcnow (S tick)) in
  let qp := mark_uploaded (mark_uploaded m q h' id' (utcnow tick))
              p h id (utcnow (S tick)) in
  (forall path hash, is_uploaded pq path hash = is_uploaded qp path hash)
  /\ dom (_payload pq) = dom (_payload qp)
  /\ (forall path key, key <> "last_uploaded" ->
        (_payload pq !! path) ≫= (fun r : record => r !! key)
        = (_payload qp !! path) ≫= (fun r : record => r !! key))
  /\ (_payload pq !! p) ≫= (fun r : record => r !! "last_uploaded")
     = Some (PyStr (utcnow tick))
  /\ (_payload qp !! p) ≫= (fun r : record => r !! "last_uploaded")
     = Some (PyStr (utcnow (S tick)))
  /\ (_payload pq = _payload qp <-> utcnow tick = utcnow (S tick)).
Proof.
  intros Hne pq qp.
  assert (Hpq : _payload pq
                = <[q := uploaded_record (default ∅ (_payload m !! q)) h' id'
                           (utcnow (S tick))]>
                    (<[p := uploaded_record (default ∅ (_payload m !! p)) h id
                              (utcnow tick)]> (_payload m)))
    by (by apply two_marks_payload).
  assert (Hqp : _payload qp
                = <[p := uploaded_record (default ∅ (_payload m !! p)) h id
                           (utcnow (S tick))]>
                    (<[q := uploaded_record (default ∅ (_payload m !! q)) h' id'
                              (utcnow tick)]> (_payload m)))
    by (by apply two_marks_payload).
  assert (Hpq_p : _payload pq !! p
                  = Some (uploaded_record (default ∅ (_payload m !! p)) h id (utcnow tick))).
  { rewrite Hpq, lookup_insert_ne by done. apply lookup_insert_eq. }
  assert (Hqp_p : _payload qp !! p
                  = Some (uploaded_record (default ∅ (_payload m !! p)) h id
                            (utcnow (S tick)))).
  { rewrite Hqp. apply lookup_insert_eq. }
  assert (Hpq_q : _payload pq !! q
                  = Some (uploaded_record (default ∅ (_payload m !! q)) h' id'
                            (utcnow (S tick)))).
  { rewrite Hpq. apply lookup_insert_eq. }
  assert (Hqp_q : _payload qp !! q
                  = Some (uploaded_record (default ∅ (_payload m !! q)) h' id'
                            (utcnow tick))).
  { rewrite Hqp, lookup_insert_ne by done. apply lookup_insert_eq. }
  assert (Hother : forall path, path <> p -> path <> q ->
                     _payload pq !! path = _payload qp !! path).
  { intros path Hp Hq. rewrite Hpq, Hqp.
    by rewrite !lookup_insert_ne by done. }
  split; [|split; [|split; [|split; [|split]]]].
  - intros path hash.
    destruct (decide (path = p)) as [->|Hp].
    { by rewrite (is_uploaded_of_uploaded_record _ _ _ _ _ _ _ Hpq_p),
                 (is_uploaded_of_uploaded_record _ _ _ _ _ _ _ Hqp_p). }
    destruct (decide (path = q)) as [->|Hq].
    { by rewrite (is_uploaded_of_uploaded_record _ _ _ _ _ _ _ Hpq_q),
                 (is_uploaded_of_uploaded_record _ _ _ _ _ _ _ Hqp_q). }
    apply is_uploaded_ext. by apply Hother.
  - rewrite Hpq, Hqp, !dom_insert_L.
    rewrite !(assoc_L (∪)). by rewrite (comm_L (∪) {[q]} {[p]}).
  - intros path key Hk.
    destruct (decide (path = p)) as [->|Hp].
    { rewrite Hpq_p, Hqp_p. simpl. by apply uploaded_record_lookup_other. }
    destruct (decide (path = q)) as [->|Hq].
    { rewrite Hpq_q, Hqp_q. simpl. by apply uploaded_record_lookup_other. }
    by rewrite Hother.
  - rewrite Hpq_p. simpl. apply uploaded_record_last.
  - rewrite Hqp_p. simpl. apply uploaded_record_last.
  - split.
    + intros E. rewrite E, Hqp_p in Hpq_p. injection Hpq_p as Hrec.
      apply (f_equal (fun r : record => r !! "last_uploaded")) in Hrec.
      cbv beta in Hrec. rewrite !lookup_insert_eq in Hrec. by injection Hrec.
    + intros E. rewrite Hpq, Hqp, E. by apply insert_insert_ne.
Qed.

Lemma mark_uploaded_either_order_witness :
  "GARMIN/Activity/a.fit" <> "GARMIN/Activity/b.fit"
  /\ is_uploaded
       (mark_uploaded
          (mark_uploaded empty_manifest "GARMIN/Activity/a.fit" "aa" (Some "1")
             "2024-05-01T10:00:00")
          "GARMIN/Activity/b.fit" "bb" None "2024-05-01T10:00:01")
       "GARMIN/Activity/a.fit" "aa"
     = is_uploaded
         (mark_uploaded
            (mark_uploaded empty_manifest "GARMIN/Activity/b.fit" "bb" None
               "2024-05-01T10:00:00")
            "GARMIN/Activity/a.fit" "aa" (Some "1") "2024-05-01T10:00:01")
         "GARMIN/Activity/a.fit" "aa".
Proof.
  split; [discriminate|].
  destruct (mark_uploaded_either_order empty_manifest
              "GARMIN/Activity/a.fit" "GARMIN/Activity/b.fit" "aa" "bb" (Some "1") None
              (fun k => match k with
                        | 0 => "2024-05-01T10:00:00"
                        | _ => "2024-05-01T10:00:01"
                        end) 0) as (H & _).
  - discriminate.
  - apply (H "GARMIN/Activity/a.fit" "aa").
Defined.

(** An answer of [True] survives a [mark_copied] of any path. *)
Lemma mark_copied_keeps_uploaded m q h0 p h :
  (is_uploaded m p h).1 = true ->
  is_uploaded (mark_copied m q h0) p h = is_uploaded m p h.
Proof.
  intros Hup. destruct (decide (q = p)) as [->|Hne].
  - apply is_uploaded_true_inv in Hup as (r & E & Hs & _).
    apply is_uploaded_ext. rewrite mark_copied_payload, lookup_insert_eq, E. simpl.
    unfold record_setdefault. by rewrite Hs.
  - apply is_uploaded_ext. by apply mark_copied_frame.
Qed.

End ManifestMore.

Module ActivityCopyFacts.
Import ActivitySync ActivityCopy PyFacts ManifestFacts ManifestMore.

Lemma copy_loop_success destination activities : forall m copied,
  forallb copy_succeeds activities = true ->
  copy_loop m activities destination copied
  = (mark_all_copied m (map fst activities),
     Ok (copied ++ map (dest_of destination) activities)%list).
Proof.
  induction activities as [|[e [u|err]] rest IH]; intros m copied H; simpl in *.
  - by rewrite app_nil_r.
  - rewrite IH by done. by rewrite <- app_assoc.
  - discriminate.
Qed.

Lemma copy_loop_abort destination pre e err post : forall m copied,
  forallb copy_succeeds pre = true ->
  copy_loop m (pre ++ (e, Raise err) :: post) destination copied
  = (mark_all_copied m (map fst pre), Raise err).
Proof.
  induction pre as [|[e' [u|err']] pre IH]; intros m copied H; simpl in *.
  - done.
  - by rewrite IH.
  - discriminate.
Qed.

Lemma mark_all_copied_keeps_uploaded entries : forall m p h,
  (is_uploaded m p h).1 = true ->
  is_uploaded (mark_all_copied m entries) p h = is_uploaded m p h.
Proof.
  induction entries as [|e entries IH]; intros m p h Hup; simpl; [done|].
  unfold mark_all_copied in *. simpl.
  rewrite IH; rewrite mark_copied_keeps_uploaded; done.
Qed.

(** Some prefix of the entries is what a run has marked, however it
    ended. *)
Lemma copy_loop_marks_prefix destination activities : forall m copied,
  exists k,
    (copy_loop m activities destination copied).1
    = mark_all_copied m (map fst (take k activities)).
Proof.
  induction activities as [|[e [u|err]] rest IH]; intros m copied; simpl.
  - by exists 0.
  - destruct (IH (mark_copied m (relative_path e) (sha256 e))
                (copied ++ [(destination, path_name (relative_path e))])%list)
      as [k Hk].
    exists (S k). by rewrite Hk.
  - by exists 0.
Qed.

End ActivityCopyFacts.

Module ActivityCopySpec.
Import ActivitySync ActivityCopy PyFacts ManifestFacts ManifestMore ActivityCopyFacts.

(** When the destination can be made and every copy succeeds,
    [copy_to_local] returns one path per entry, in order, each the
    destination joined with the file name of the entry's relative path,
    and every entry has been passed to [mark_copied]. *)
Theorem copy_to_local_success (m : ActivityManifest) (u : unit)
    (activities : list (ActivityEntry * result unit)) (destination : string) :
  forallb copy_succeeds activities = true ->
  copy_to_local m (Ok u) activities destination
  = (mark_all_copied m (map fst activities),
     Ok (map (fun a => (destination, path_name (relative_path a.1))) activities)).
Proof. intros H. unfold copy_to_local. by rewrite copy_loop_success. Qed.

Lemma copy_to_local_success_witness :
  copy_to_local empty_manifest (Ok tt)
    [(demo_entry "GARMIN/Activity/a.fit" "aa", Ok tt);
     (demo_entry "GARMIN/Monitor/b.fit" "bb", Ok tt)] "/home/u/fit"
  = (mark_all_copied empty_manifest
       [demo_entry "GARMIN/Activity/a.fit" "aa"; demo_entry "GARMIN/Monitor/b.fit" "bb"],
     Ok [("/home/u/fit", "a.fit"); ("/home/u/fit", "b.fit")]).
Proof.
  apply (copy_to_local_success empty_manifest tt
           [(demo_entry "GARMIN/Activity/a.fit" "aa", Ok tt);
            (demo_entry "GARMIN/Monitor/b.fit" "bb", Ok tt)]).
  reflexivity.
Defined.

(** The first failing copy ends [copy_to_local] with its exception: no
    path list is returned and no later entry is touched, but the entries
    copied before it stay marked in the manifest (no rollback). *)
Theorem copy_to_local_aborts (m : ActivityManifest) (u : unit)
    (pre post : list (ActivityEntry * result unit)) (e : ActivityEntry) (err : exn)
    (destination : string) :
  forallb copy_succeeds pre = true ->
  copy_to_local m (Ok u) (pre ++ (e, Raise err) :: post) destination
  = (mark_all_copied m (map fst pre), Raise err).
Proof. intros H. unfold copy_to_local. by apply copy_loop_abort. Qed.

Lemma copy_to_local_aborts_witness :
  copy_to_local empty_manifest (Ok tt)
    ([(demo_entry "GARMIN/Activity/a.fit" "aa", Ok tt)]
     ++ (demo_entry "GARMIN/Activity/b.fit" "bb", Raise (FileNotFoundError "b.fit"))
     :: [(demo_entry "GARMIN/Activity/c.fit" "cc", Ok tt)]) "/home/u/fit"
  = (mark_all_copied empty_manifest [demo_entry "GARMIN/Activity/a.fit" "aa"],
     Raise (FileNotFoundError "b.fit")).
Proof.
  apply (copy_to_local_aborts empty_manifest tt
           [(demo_entry "GARMIN/Activity/a.fit" "aa", Ok tt)]).
  reflexivity.
Defined.

(** However a [copy_to_local] run ends, an activity the manifest reports
    as uploaded is still reported as uploaded, with the same upload id. *)
Theorem copy_to_local_keeps_uploaded (m : ActivityManifest) (mkdir : result unit)
    (activities : list (ActivityEntry * result unit)) (destination p h : string) :
  (is_uploaded m p h).1 = true ->
  is_uploaded (copy_to_local m mkdir activities destination).1 p h
  = is_uploaded m p h.
Proof.
  intros Hup. unfold copy_to_local. destruct mkdir as [u|err]; [|done].
  destruct (copy_loop_marks_prefix destination activities m []) as [k ->].
  by apply mark_all_copied_keeps_uploaded.
Qed.

Lemma copy_to_local_keeps_uploaded_witness :
  is_uploaded
    (copy_to_local demo_manifest (Ok tt)
       [(demo_entry "GARMIN/Activity/run.fit" "changed", Ok tt)] "/home/u/fit").1
    "GARMIN/Activity/run.fit" "aa"
  = (true, PyStr "42").
Proof.
  rewrite (copy_to_local_keeps_uploaded demo_manifest (Ok tt)
             [(demo_entry "GARMIN/Activity/run.fit" "changed", Ok tt)] "/home/u/fit"
             "GARMIN/Activity/run.fit" "aa").
  - unfold demo_manifest. apply is_uploaded_after_mark.
  - unfold demo_manifest. by rewrite is_uploaded_after_mark.
Defined.

End ActivityCopySpec.

Module WorkoutStoreSpec.
Import WorkoutManager WorkoutStore.

(** [delete_template] with an index outside [0, len) changes nothing:
    neither the template list nor the store file. *)
Theorem delete_template_out_of_range (m : Manager) (index : Z) :
  (index < 0 \/ Z.of_nat (length (templates m)) <= index)%Z ->
  delete_template m index = m.
Proof.
  intros H. unfold delete_template.
  destruct (Z.leb_spec 0 index), (Z.ltb_spec index (Z.of_nat (length (templates m))));
    simpl; try done; lia.
Qed.

Lemma delete_template_out_of_range_witness :
  delete_template {| templates := [scenario_template]; store := None |} (-1)
  = {| templates := [scenario_template]; store := None |}.
Proof.
  apply (delete_template_out_of_range
           {| templates := [scenario_template]; store := None |} (-1)).
  left. reflexivity.
Defined.




Lemma to_dict_lookups t :
  to_dict t !! "name" = Some (PyStr (name t))
  /\ to_dict t !! "sport" = Some (PyStr (sport t))
  /\ to_dict t !! "warmup_seconds" = Some (PyInt (warmup_seconds t))
  /\ to_dict t !! "interval_seconds" = Some (PyInt (interval_seconds t))
  /\ to_dict t !! "recovery_seconds" = Some (PyInt (recovery_seconds t))
  /\ to_dict t !! "repeats" = Some (PyInt (repeats t))
  /\ to_dict t !! "cooldown_seconds" = Some (PyInt (cooldown_seconds t)).
Proof. repeat split; reflexivity. Qed.

(** The dictionary written to the store determines the template: two
    templates with the same [to_dict] are equal. *)
Theorem to_dict_injective (t1 t2 : WorkoutTemplate) :
  to_dict t1 = to_dict t2 -> t1 = t2.
Proof.
  intros E.
  destruct (to_dict_lookups t1) as (N1 & S1 & W1 & I1 & R1 & P1 & C1).
  destruct (to_dict_lookups t2) as (N2 & S2 & W2 & I2 & R2 & P2 & C2).
  rewrite E in N1, S1, W1, I1, R1, P1, C1.
  destruct t1, t2; simpl in *. congruence.
Qed.

Lemma to_dict_injective_witness :
  to_dict (zero_template "a" "running") = to_dict (zero_template "a" "running")
  /\ zero_template "a" "running" = zero_template "a" "running".
Proof.
  split; [reflexivity|].
  apply (to_dict_injective (zero_template "a" "running") (zero_template "a" "running")).
  reflexivity.
Defined.

End WorkoutStoreSpec.

Module PayloadMore.
Import WorkoutManager WorkoutView PyFacts WorkoutFacts.

Lemma executable_step_raise order key seconds st e :
  STEP_TYPES !! key = Some st ->
  executable_step order key seconds = Raise e ->
  e = OverflowError "int too large to convert to float".
Proof.
  intros Hst. unfold executable_step, getitem, float_of_int. rewrite Hst. simpl.
  destruct (Z.abs seconds <? float_max_int)%Z; simpl; [discriminate|].
  by intros [= <-].
Qed.

Lemma executable_step_ok_eq order key seconds st e :
  STEP_TYPES !! key = Some st ->
  executable_step order key seconds = Ok e ->
  e = {| stepOrder := order; stepType := st; endCondition := TIME_CONDITION;
         endConditionValue := as_float seconds; targetType := TARGET_NONE;
         strokeType := (0, 0)%Z; equipmentType := (0, 0)%Z |}.
Proof.
  intros Hst. unfold executable_step, getitem, float_of_int. rewrite Hst. simpl.
  destruct (Z.abs seconds <? float_max_int)%Z; simpl; [|discriminate].
  by intros [= <-].
Qed.

Lemma build_repeat_block_raise order t e :
  build_repeat_block order t = Raise e ->
  e = OverflowError "int too large to convert to float".
Proof.
  destruct step_type_lookup as (_ & _ & Hi & Hr & Hp).
  unfold build_repeat_block, getitem. rewrite Hp.
  destruct (executable_step (order + 1) "interval" (interval_seconds t)) eqn:Ei; simpl;
    [|intros [= <-]; eapply executable_step_raise; [|exact Ei]; eassumption].
  destruct (executable_step (order + 2) "recovery" (recovery_seconds t)) eqn:Er; simpl;
    [|intros [= <-]; eapply executable_step_raise; [|exact Er]; eassumption].
  unfold float_of_int.
  destruct (Z.abs (repeats t) <? float_max_int)%Z; simpl; [discriminate|].
  by intros [= <-].
Qed.

Lemma build_repeat_block_ok_eq order t b o :
  build_repeat_block order t = Ok (b, o) ->
  exists ei er,
    b = RepeatGroup
          {| rg_stepOrder := order;
             rg_stepType := {| stepTypeId := 6; stepTypeKey := "repeat";
                               step_displayOrder := 6 |};
             numberOfIterations := repeats t;
             rg_workoutSteps := [ei; er];
             rg_endConditionValue := as_float (repeats t);
             rg_endCondition := ITERATION_CONDITION;
             smartRepeat := false |}
    /\ timed ei = ("interval", as_float (interval_seconds t))
    /\ timed er = ("recovery", as_float (recovery_seconds t))
    /\ endCondition ei = TIME_CONDITION /\ targetType ei = TARGET_NONE
    /\ endCondition er = TIME_CONDITION /\ targetType er = TARGET_NONE.
Proof.
  destruct step_type_lookup as (_ & _ & Hi & Hr & Hp).
  unfold build_repeat_block, getitem. rewrite Hp.
  destruct (executable_step (order + 1) "interval" (interval_seconds t)) as [ei|] eqn:Ei;
    simpl; [|discriminate].
  destruct (executable_step (order + 2) "recovery" (recovery_seconds t)) as [er|] eqn:Er;
    simpl; [|discriminate].
  unfold float_of_int.
  destruct (Z.abs (repeats t) <? float_max_int)%Z; simpl; [|discriminate].
  intros [= <- <-]. exists ei, er.
  rewrite (executable_step_ok_eq _ _ _ _ _ Hi Ei).
  rewrite (executable_step_ok_eq _ _ _ _ _ Hr Er). done.
Qed.

(** The only exception [build_payload] raises is [OverflowError]. *)
Lemma build_payload_raise t e :
  build_payload t = Raise e -> e = OverflowError "int too large to convert to float".
Proof.
  destruct step_type_lookup as (Hw & Hc & _).
  unfold build_payload, getitem. rewrite sport_type_running. simpl.
  fold (has_warmup t) (has_repeat t) (has_cooldown t).
  destruct (has_warmup t); simpl.
  - destruct (executable_step 1 "warmup" (warmup_seconds t)) eqn:Ew; simpl;
      [|intros [= <-]; eapply executable_step_raise; [|exact Ew]; eassumption].
    destruct (has_repeat t); simpl.
    + destruct (build_repeat_block (1 + 1) t) as [[b o]|] eqn:Eb; simpl;
        [|intros [= <-]; exact (build_repeat_block_raise _ _ _ Eb)].
      destruct (has_cooldown t); simpl; [|discriminate].
      destruct (executable_step o "cooldown" (cooldown_seconds t)) eqn:Ec; simpl;
        [discriminate | intros [= <-]; eapply executable_step_raise; [|exact Ec]; eassumption].
    + destruct (has_cooldown t); simpl; [|discriminate].
      destruct (executable_step (1 + 1) "cooldown" (cooldown_seconds t)) eqn:Ec; simpl;
        [discriminate | intros [= <-]; eapply executable_step_raise; [|exact Ec]; eassumption].
  - destruct (has_repeat t); simpl.
    + destruct (build_repeat_block 1 t) as [[b o]|] eqn:Eb; simpl;
        [|intros [= <-]; exact (build_repeat_block_raise _ _ _ Eb)].
      destruct (has_cooldown t); simpl; [|discriminate].
      destruct (executable_step o "cooldown" (cooldown_seconds t)) eqn:Ec; simpl;
        [discriminate | intros [= <-]; eapply executable_step_raise; [|exact Ec]; eassumption].
    + destruct (has_cooldown t); simpl; [|discriminate].
      destruct (executable_step 1 "cooldown" (cooldown_seconds t)) eqn:Ec; simpl;
        [discriminate | intros [= <-]; eapply executable_step_raise; [|exact Ec]; eassumption].
Qed.

(** [build_payload] returns a payload exactly for the templates whose
    emitted durations and repeat count [float()] accepts, so for every
    template with fields below [2^1024 - 2^970] in absolute value;
    otherwise it raises [OverflowError], and nothing else. *)
Theorem build_payload_ok_iff (t : WorkoutTemplate) :
  ((exists p, build_payload t = Ok p) <-> compilable t)
  /\ (forall e, build_payload t = Raise e ->
                e = OverflowError "int too large to convert to float"
                /\ ~ compilable t)
  /\ (float_convertible (warmup_seconds t) -> float_convertible (interval_seconds t) ->
      float_convertible (recovery_seconds t) -> float_convertible (repeats t) ->
      float_convertible (cooldown_seconds t) ->
      exists p, build_payload t = Ok p).
Proof.
  split; [|split].
  - split; [|apply build_payload_total].
    intros [p Hp]. by destruct (build_payload_inv _ _ Hp).
  - intros e He. split; [exact (build_payload_raise t e He)|].
    intros Hc. destruct (build_payload_total t Hc) as [p Hp]. congruence.
  - intros Cw Ci Cr Cp Cc. apply build_payload_total. by repeat split.
Qed.

Lemma build_payload_ok_iff_witness :
  exists p, build_payload scenario_template = Ok p.
Proof.
  destruct (build_payload_ok_iff scenario_template) as (_ & _ & H).
  apply H; unfold float_convertible; reflexivity.
Defined.

Lemma sport_types_lookup s d :
  SPORT_TYPES !! s = Some d -> sportTypeKey d = s /\ known_sport s = true.
Proof.
  unfold SPORT_TYPES, known_sport. simpl. intros H.
  apply lookup_insert_Some in H as [[<- <-]|[_ H]]; [done|].
  apply lookup_insert_Some in H as [[<- <-]|[_ H]]; [done|].
  apply lookup_insert_Some in H as [[<- <-]|[_ H]]; [done|].
  by rewrite lookup_empty in H.
Qed.

Lemma sport_types_known s :
  known_sport s = true -> exists d, SPORT_TYPES !! s = Some d.
Proof.
  unfold known_sport. intros H.
  apply orb_prop in H as [H|H]; [apply orb_prop in H as [H|H]|];
    apply String.eqb_eq in H; subst; eexists; reflexivity.
Qed.

(** The sport descriptor of a payload is the whole entry [SPORT_TYPES]
    has for the template's sport tag: id 1, key running, order 1 for
    ["running"]; 2, cycling, 2 for ["cycling"]; 9, other, 9 for ["other"];
    and the entry of ["running"] for any other tag. The single segment
    carries the same descriptor. *)
Theorem build_payload_sport (t : WorkoutTemplate) (p : WorkoutPayload) :
  build_payload t = Ok p ->
  (sport t = "running" ->
   sportType p = {| sportTypeId := 1; sportTypeKey := "running";
                    sport_displayOrder := 1 |})
  /\ (sport t = "cycling" ->
      sportType p = {| sportTypeId := 2; sportTypeKey := "cycling";
                       sport_displayOrder := 2 |})
  /\ (sport t = "other" ->
      sportType p = {| sportTypeId := 9; sportTypeKey := "other";
                       sport_displayOrder := 9 |})
  /\ (known_sport (sport t) = false ->
      sportType p = {| sportTypeId := 1; sportTypeKey := "running";
                       sport_displayOrder := 1 |})
  /\ sportTypeKey (sportType p) = (if known_sport (sport t) then sport t else "running")
  /\ Forall (fun seg => seg_sportType seg = sportType p) (workoutSegments p).
Proof.
  intros Hp. destruct (build_payload_inv _ _ Hp) as (_ & steps & -> & _). simpl.
  split; [intros ->; reflexivity|].
  split; [intros ->; reflexivity|].
  split; [intros ->; reflexivity|].
  destruct (SPORT_TYPES !! sport t) as [d|] eqn:E; simpl.
  - destruct (sport_types_lookup _ _ E) as [-> ->]. repeat split; [done|].
    by repeat constructor.
  - destruct (known_sport (sport t)) eqn:K.
    + destruct (sport_types_known _ K) as [d Hd]. congruence.
    + repeat split. by repeat constructor.
Qed.

Lemma build_payload_sport_witness :
  (exists p,
      build_payload {| name := "Swim"; sport := "swimming"; warmup_seconds := 60;
                       interval_seconds := 0; recovery_seconds := 0; repeats := 0;
                       cooldown_seconds := 0 |} = Ok p
      /\ sportType p = {| sportTypeId := 1; sportTypeKey := "running";
                          sport_displayOrder := 1 |})
  /\ (exists p,
        build_payload {| name := "Ride"; sport := "cycling"; warmup_seconds := 60;
                         interval_seconds := 0; recovery_seconds := 0; repeats := 0;
                         cooldown_seconds := 0 |} = Ok p
        /\ sportType p = {| sportTypeId := 2; sportTypeKey := "cycling";
                            sport_displayOrder := 2 |}).
Proof.
  split.
  - destruct (build_payload_total
                {| name := "Swim"; sport := "swimming"; warmup_seconds := 60;
                   interval_seconds := 0; recovery_seconds := 0; repeats := 0;
                   cooldown_seconds := 0 |}) as [p Hp].
    { unfold compilable, float_convertible. cbn. repeat split; try discriminate. }
    exists p. split; [exact Hp|].
    destruct (build_payload_sport _ _ Hp) as (_ & _ & _ & H & _).
    apply H. reflexivity.
  - destruct (build_payload_total
                {| name := "Ride"; sport := "cycling"; warmup_seconds := 60;
                   interval_seconds := 0; recovery_seconds := 0; repeats := 0;
                   cooldown_seconds := 0 |}) as [p Hp].
    { unfold compilable, float_convertible. cbn. repeat split; try discriminate. }
    exists p. split; [exact Hp|].
    destruct (build_payload_sport _ _ Hp) as (_ & H & _).
    apply H. reflexivity.
Defined.

End PayloadMore.

Module PayloadStructure.
Import WorkoutManager WorkoutView PyFacts WorkoutFacts PayloadMore.

(** Every returned payload lists the step kinds in the order warmup,
    repeat, cooldown (each only when its phase is present); its
    executable steps, the repeat block's children included, are warmup,
    interval, recovery, cooldown, each timed with [float] of the matching
    template field, ending on elapsed time with no target; the repeat block
    iterates [repeats] times over exactly two children. *)
Theorem build_payload_structure (t : WorkoutTemplate) (p : WorkoutPayload) :
  build_payload t = Ok p ->
  exists seg,
    workoutSegments p = [seg]
    /\ map step_key (workoutSteps seg) = expected_keys t
    /\ map timed (executable_steps (workoutSteps seg)) = expected_timed t
    /\ Forall (fun e => endCondition e = TIME_CONDITION /\ targetType e = TARGET_NONE)
         (executable_steps (workoutSteps seg))
    /\ Forall (fun g => numberOfIterations g = repeats t
                        /\ rg_endConditionValue g = as_float (repeats t)
                        /\ rg_endCondition g = ITERATION_CONDITION
                        /\ smartRepeat g = false
                        /\ length (rg_workoutSteps g) = 2)
         (repeat_groups (workoutSteps seg)).
Proof.
  destruct step_type_lookup as (Hw & Hc & _).
  unfold build_payload, getitem. rewrite sport_type_running. simpl.
  unfold expected_keys, expected_timed.
  fold (has_warmup t) (has_repeat t) (has_cooldown t).
  destruct (has_warmup t); simpl;
    [destruct (executable_step 1 "warmup" (warmup_seconds t)) as [ew|] eqn:Ew; simpl;
       [rewrite (executable_step_ok_eq _ _ _ _ _ Hw Ew) | discriminate] |];
    (destruct (has_repeat t); simpl;
     [ match goal with
       | |- context [build_repeat_block ?o t] =>
           destruct (build_repeat_block o t) as [[b o']|] eqn:Eb; simpl;
           [destruct (build_repeat_block_ok_eq _ _ _ _ Eb)
              as (ei & er & -> & Ti & Tr & Ci & Gi & Cr & Gr) | discriminate]
       end | ]);
    (destruct (has_cooldown t); simpl;
     [ match goal with
       | |- context [executable_step ?o "cooldown" _] =>
           destruct (executable_step o "cooldown" (cooldown_seconds t)) as [ec|] eqn:Ec;
           simpl; [rewrite (executable_step_ok_eq _ _ _ _ _ Hc Ec) | discriminate]
       end | ]);
    intros [= <-]; eexists; (split; [reflexivity|]); simpl;
    unfold executable_steps, repeat_groups; simpl;
    rewrite ?Ti, ?Tr; repeat split; repeat constructor; done.
Qed.

Lemma build_payload_structure_witness :
  exists p seg,
    build_payload scenario_template = Ok p
    /\ workoutSegments p = [seg]
    /\ map step_key (workoutSteps seg) = ["warmup"; "repeat"; "cooldown"].
Proof.
  destruct (build_payload_total scenario_template) as [p Hp].
  { unfold compilable, float_convertible. cbn. repeat split; reflexivity. }
  destruct (build_payload_structure scenario_template p Hp) as (seg & Hs & Hk & _).
  exists p, seg. repeat split; done.
Defined.

Lemma emitted_orders_cases t :
  (has_repeat t && has_cooldown t = false
   /\ NoDup (emitted_orders t)
   /\ emitted_orders t = map Z.of_nat (seq 1 (length (emitted_orders t))))
  \/ (has_repeat t && has_cooldown t = true
      /\ ~ NoDup (emitted_orders t)
      /\ exists l n, emitted_orders t = (l ++ [n; n])%list).
Proof.
  unfold emitted_orders, cooldown_order, repeat_order.
  destruct (has_warmup t), (has_repeat t), (has_cooldown t); simpl;
    first
      [ left; split; [reflexivity|]; split;
        [apply (bool_decide_unpack _); vm_compute; exact I | reflexivity]
      | right; split; [reflexivity|]; split;
        [apply (bool_decide_unpack _); vm_compute; exact I |];
        first [by exists [1; 2; 3]%Z, 4%Z | by exists [1; 2]%Z, 3%Z] ].
Qed.

(** The order indices of a returned payload are pairwise distinct exactly
    when the template does not have both a repeat block and a cooldown;
    they are then 1, 2, ..., one per emitted step. With both, the last two
    indices are equal. *)
Theorem step_orders_distinct_iff (t : WorkoutTemplate) (p : WorkoutPayload)
    (seg : WorkoutSegment) :
  build_payload t = Ok p ->
  workoutSegments p = [seg] ->
  (NoDup (step_orders (workoutSteps seg)) <-> has_repeat t && has_cooldown t = false)
  /\ (has_repeat t && has_cooldown t = false ->
      step_orders (workoutSteps seg)
      = map Z.of_nat (seq 1 (length (step_orders (workoutSteps seg)))))
  /\ (has_repeat t && has_cooldown t = true ->
      exists l n, step_orders (workoutSteps seg) = (l ++ [n; n])%list).
Proof.
  intros Hp Hs. destruct (build_payload_inv _ _ Hp) as (_ & steps & -> & _ & _ & Ho).
  simpl in Hs. injection Hs as <-. simpl. rewrite Ho.
  destruct (emitted_orders_cases t) as [(Hb & Hnd & Hseq)|(Hb & Hnd & Hex)];
    rewrite Hb; repeat split; try done.
Qed.

Lemma step_orders_distinct_iff_witness :
  exists p seg,
    build_payload scenario_template = Ok p
    /\ workoutSegments p = [seg]
    /\ ~ NoDup (step_orders (workoutSteps seg)).
Proof.
  destruct (build_payload_total scenario_template) as [p Hp].
  { unfold compilable, float_convertible. cbn. repeat split; reflexivity. }
  destruct (build_payload_inv _ _ Hp) as (_ & steps & Heq & _).
  exists p, {| segmentOrder := 1; seg_sportType := sportType p; workoutSteps := steps |}.
  assert (Hs : workoutSegments p
               = [{| segmentOrder := 1; seg_sportType := sportType p;
                     workoutSteps := steps |}]) by (by rewrite Heq).
  split; [exact Hp|]. split; [exact Hs|].
  destruct (step_orders_distinct_iff scenario_template p _ Hp Hs) as ([H _] & _).
  intros Hnd. specialize (H Hnd). discriminate.
Defined.

(** The estimated duration is never negative, and it is zero exactly when
    warmup and cooldown are not positive and either the repeat count or
    both the interval and the recovery are not positive. *)
Theorem estimated_duration_sign (t : WorkoutTemplate) :
  (0 <= estimated_duration t)%Z
  /\ (estimated_duration t = 0%Z
      <-> (warmup_seconds t <= 0 /\ cooldown_seconds t <= 0
           /\ (repeats t <= 0
               \/ (interval_seconds t <= 0 /\ recovery_seconds t <= 0)))%Z).
Proof.
  unfold estimated_duration.
  destruct (Z.max_spec 0 (warmup_seconds t)) as [[? ->]|[? ->]];
  destruct (Z.max_spec 0 (cooldown_seconds t)) as [[? ->]|[? ->]];
  destruct (Z.max_spec 0 (interval_seconds t)) as [[? ->]|[? ->]];
  destruct (Z.max_spec 0 (recovery_seconds t)) as [[? ->]|[? ->]];
  destruct (Z.max_spec 0 (repeats t)) as [[? ->]|[? ->]];
  split; try nia; split; intros; nia.
Qed.

Lemma estimated_duration_sign_witness :
  estimated_duration
    {| name := "Rest"; sport := "other"; warmup_seconds := 0; interval_seconds := 60;
       recovery_seconds := 30; repeats := 0; cooldown_seconds := -5 |} = 0%Z.
Proof.
  apply (estimated_duration_sign
           {| name := "Rest"; sport := "other"; warmup_seconds := 0;
              interval_seconds := 60; recovery_seconds := 30; repeats := 0;
              cooldown_seconds := -5 |}).
  simpl. lia.
Defined.

End PayloadStructure.

Module FilenameMore.
Import WorkoutManager WorkoutView FilenameFacts.

Lemma valid_char_safe ch : valid_char ch = true -> safe_char ch = ch.
Proof. unfold safe_char. fold (valid_char ch). by intros ->. Qed.

(** A character [sanitize_filename] keeps is neither whitespace nor a
    path separator nor a dot. *)
Lemma valid_char_not_unsafe ch : valid_char ch = true -> path_unsafe_char ch = false.
Proof.
  destruct ch as [[] [] [] [] [] [] [] []]; vm_compute; intros H;
    first [reflexivity | discriminate H].
Qed.

Lemma valid_char_not_space ch : valid_char ch = true -> isspace ch = false.
Proof.
  intros H. apply valid_char_not_unsafe in H. unfold path_unsafe_char in H.
  by apply orb_false_elim in H as [_ H].
Qed.

Lemma str_forallb_impl (f g : ascii -> bool) s :
  (forall ch, f ch = true -> g ch = true) ->
  str_forallb f s = true -> str_forallb g s = true.
Proof.
  intros Hfg. induction s as [|ch s IH]; cbn [str_forallb]; [done|].
  intros [H1 H2]%andb_prop. by rewrite (Hfg _ H1), IH.
Qed.

Lemma lstrip_no_space s :
  str_forallb (fun ch => negb (isspace ch)) s = true -> lstrip s = s.
Proof.
  destruct s as [|ch s]; cbn [str_forallb lstrip]; [done|].
  intros [H _]%andb_prop. by apply negb_true_iff in H as ->.
Qed.

Lemma rstrip_no_space s :
  str_forallb (fun ch => negb (isspace ch)) s = true -> rstrip s = s.
Proof.
  induction s as [|ch s IH]; cbn [str_forallb rstrip]; [done|].
  intros [H1 H2]%andb_prop. rewrite (IH H2).
  apply negb_true_iff in H1. rewrite H1. by destruct s.
Qed.

Lemma strip_no_space s :
  str_forallb (fun ch => negb (isspace ch)) s = true -> strip s = s.
Proof.
  intros H. unfold strip. rewrite (lstrip_no_space _ H). by apply rstrip_no_space.
Qed.

Lemma str_map_safe_fixed s :
  str_forallb valid_char s = true -> str_map safe_char s = s.
Proof.
  induction s as [|ch s IH]; cbn [str_forallb str_map]; [done|].
  intros [H1 H2]%andb_prop. by rewrite (valid_char_safe _ H1), IH.
Qed.

Lemma sanitize_filename_valid name :
  sanitize_filename name <> "" /\ str_forallb valid_char (sanitize_filename name) = true.
Proof.
  destruct (sanitize_filename_cases name) as [[E ->]|[E ->]].
  - split; [discriminate | reflexivity].
  - split; [|apply str_map_safe_valid].
    intros H. by apply str_map_empty in H.
Qed.

End FilenameMore.

Module FilenameMoreSpec.
Import WorkoutManager WorkoutView FilenameFacts FilenameMore.

(** A sanitized name is left as it is by [sanitize_filename]. *)
Theorem sanitize_filename_idempotent (name : string) :
  sanitize_filename (sanitize_filename name) = sanitize_filename name.
Proof.
  destruct (sanitize_filename_valid name) as [Hne Hvalid].
  set (r := sanitize_filename name) in *.
  assert (Hstrip : strip r = r).
  { apply strip_no_space. eapply str_forallb_impl; [|exact Hvalid].
    intros ch Hch. by rewrite (valid_char_not_space _ Hch). }
  unfold sanitize_filename at 1. rewrite Hstrip, (str_map_safe_fixed _ Hvalid).
  destruct (String.eqb_spec r ""); [done | reflexivity].
Qed.

(** A sanitized name holds no path separator, no dot and no whitespace,
    and it is not empty: as a file name it stays inside the directory it
    is joined to. *)
Theorem sanitize_filename_path_safe (name : string) :
  sanitize_filename name <> ""
  /\ str_forallb (fun ch => negb (path_unsafe_char ch)) (sanitize_filename name) = true.
Proof.
  destruct (sanitize_filename_valid name) as [Hne Hvalid]. split; [done|].
  eapply str_forallb_impl; [|exact Hvalid].
  intros ch Hch. by rewrite (valid_char_not_unsafe _ Hch).
Qed.

End FilenameMoreSpec.

Module StripFacts.
Import WorkoutManager FilenameFacts.

Lemma lstrip_first_not_space s :
  is_space_opt (first_char s) = false -> lstrip s = s.
Proof. destruct s as [|ch s]; simpl; [done|]. by intros ->. Qed.

Lemma rstrip_cons ch s :
  rstrip (String ch s)
  = match rstrip s with
    | EmptyString => if isspace ch then EmptyString else String ch EmptyString
    | r => String ch r
    end.
Proof. reflexivity. Qed.

Lemma rstrip_last_not_space s :
  is_space_opt (last_char s) = false -> rstrip s = s.
Proof.
  induction s as [|ch s IH]; [done|].
  destruct s as [|ch' s].
  - simpl. by intros ->.
  - intros H. rewrite rstrip_cons, IH; [done | exact H].
Qed.

(** [strip] does nothing on a stripped string. *)
Lemma strip_idempotent s : strip (strip s) = strip s.
Proof.
  destruct (strip_spec s) as (_ & _ & _ & _ & _ & Hf & Hl).
  unfold strip at 1. rewrite (lstrip_first_not_space _ Hf).
  by apply rstrip_last_not_space.
Qed.

End StripFacts.

Module SyncOpsFacts.
Import SyncService SyncOps SyncFacts FilenameFacts.

Lemma concat_map_singleton {A B} (f : A -> B) (l : list A) :
  concat (map (fun x => [f x]) l) = map f l.
Proof. induction l as [|x l IH]; simpl; [done | by rewrite IH]. Qed.


Lemma concat_map_nil {A B} (l : list A) :
  concat (map (fun _ : A => @nil B) l) = [].
Proof. induction l as [|x l IH]; simpl; [done | exact IH]. Qed.

(** A loop whose body always returns: it returns, and the events of a
    kind in its trace are those of the bodies, in order. *)
Lemma for_each_filter {A} (P : event -> bool) (body : A -> io unit)
    (g : A -> list event) (l : list A) :
  (forall x, x ∈ l -> exists t, body x = (t, Ok tt) /\ List.filter P t = g x) ->
  exists t, for_each l body = (t, Ok tt) /\ List.filter P t = concat (map g l).
Proof.
  induction l as [|x l IH]; intros H; simpl.
  - by exists [].
  - destruct (H x) as (t1 & -> & F1); [left|].
    destruct IH as (t2 & -> & F2); [intros y Hy; apply H; by right|].
    exists (t1 ++ t2)%list. simpl. split; [done|].
    by rewrite List.filter_app, F1, F2.
Qed.

Lemma for_each_elem {A} (body : A -> io unit) (l : list A) :
  (forall x, x ∈ l -> exists t, body x = (t, Ok tt)) ->
  exists t, for_each l body = (t, Ok tt)
            /\ forall x ev, x ∈ l -> ev ∈ (body x).1 -> ev ∈ t.
Proof.
  induction l as [|x l IH]; intros H; simpl.
  - exists []. split; [done|]. intros x ev Hx. by apply elem_of_nil in Hx.
  - destruct (H x) as (t1 & E1); [left|].
    destruct IH as (t2 & E2 & M2); [intros y Hy; apply H; by right|].
    rewrite E1, E2. exists (t1 ++ t2)%list. simpl. split; [done|].
    intros y ev Hy Hev. apply elem_of_app.
    apply elem_of_cons in Hy as [->|Hy].
    + left. by rewrite E1 in Hev.
    + right. by eapply M2.
Qed.

(** The conversion and temporary-file events of one file whose conversion
    does not raise. *)
Lemma copy_local_file_conversion G f d ac log :
  conversion_succeeds ac f = true ->
  exists t,
    _copy_local_file_to_watch G f d ac log = (t, Ok tt)
    /\ List.filter is_ffmpeg t = ffmpeg_events ac f
    /\ List.filter is_temp_file_event t = temp_file_events ac f.
Proof.
  unfold conversion_succeeds, _copy_local_file_to_watch, maybe_convert_to_mp3,
    ffmpeg_events, temp_file_events, ffmpeg_command, converted_path.
  fold (needs_conversion ac f).
  destruct (needs_conversion ac f) eqn:N; simpl.
  - destruct (which_ffmpeg f) eqn:W; [|discriminate].
    destruct (Z.eqb_spec (ffmpeg_returncode f) 0) as [Z0|]; [|discriminate].
    intros _.
    unfold convert_file_to_mp3, ensure_ffmpeg_available, _gio_copy_with_log,
      _ensure_destination_parent, ensure_directory, gio_copy, _run, finally.
    rewrite W, Z0.
    destruct log, (startswith d G); cbn;
      destruct (ok (copy_result f)); cbn;
      (eexists; split; [reflexivity|]; split; reflexivity).
  - intros _.
    unfold _gio_copy_with_log, _ensure_destination_parent, ensure_directory,
      gio_copy, _run.
    destruct log, (startswith d G); cbn;
      destruct (ok (copy_result f)); cbn;
      (eexists; split; [reflexivity|]; split; reflexivity).
Qed.

(** The steps of one file whose conversion does not raise, in the order
    they are taken; the copy may fail. *)
Lemma copy_local_file_steps G f d ac log :
  conversion_succeeds ac f = true ->
  exists t,
    _copy_local_file_to_watch G f d ac log = (t, Ok tt)
    /\ List.filter is_step_event t = file_steps d ac f.
Proof.
  unfold conversion_succeeds, _copy_local_file_to_watch, maybe_convert_to_mp3,
    file_steps, copy_command, path_to_copy, dest_name, ffmpeg_command, converted_path.
  fold (needs_conversion ac f).
  destruct (needs_conversion ac f) eqn:N; simpl.
  - destruct (which_ffmpeg f) eqn:W; [|discriminate].
    destruct (Z.eqb_spec (ffmpeg_returncode f) 0) as [Z0|]; [|discriminate].
    intros _.
    unfold convert_file_to_mp3, ensure_ffmpeg_available, _gio_copy_with_log,
      _ensure_destination_parent, ensure_directory, gio_copy, _run, finally.
    rewrite W, Z0.
    destruct log, (startswith d G); cbn;
      destruct (ok (copy_result f)); cbn;
      (eexists; split; reflexivity).
  - intros _.
    unfold _gio_copy_with_log, _ensure_destination_parent, ensure_directory,
      gio_copy, _run.
    destruct log, (startswith d G); cbn;
      destruct (ok (copy_result f)); cbn;
      (eexists; split; reflexivity).
Qed.

(** One watch item copied to the computer. *)
Lemma gio_copy_with_log_watch G e local_dir log :
  exists t,
    _gio_copy_with_log G (item_path e) local_dir (name (item_path e))
      (item_is_dir e) log (item_parent_result e) (item_result e) = (t, Ok tt)
    /\ List.filter is_gio_copy t = [watch_copy_command local_dir e].
Proof.
  unfold _gio_copy_with_log, _ensure_destination_parent, ensure_directory,
    gio_copy, _run, watch_copy_command.
  destruct log, (startswith local_dir G), (item_is_dir e); cbn;
    destruct (ok (item_result e)); cbn; eexists; split; reflexivity.
Qed.

Lemma delete_watch_item e log :
  exists t,
    (_log log ("Removing " ++ name (item_path e)) ;;;
     gio_remove (str (item_path e)) log (item_result e)) = (t, Ok tt)
    /\ List.filter is_gio_remove t = [watch_remove_command e]
    /\ (log = true -> ok (item_result e) = false -> remove_failure_line e ∈ t).
Proof.
  unfold _log, gio_remove, _run, watch_remove_command, remove_failure_line.
  destruct log; cbn; destruct (ok (item_result e)); cbn;
    (eexists; split; [reflexivity|]; split; [reflexivity|]);
    intros; try discriminate; set_solver.
Qed.


Lemma gio_list_returns path res :
  gio_list path res = ([Run ["gio"; "list"; path]], Ok (listed_names res)).
Proof. unfold gio_list, listed_names, _run. cbn. by destruct (ok res). Qed.

Lemma wipe_directory_no_copy path log entries :
  exists t, wipe_directory path log entries = (t, Ok tt)
            /\ List.filter is_gio_copy t = [].
Proof.
  unfold wipe_directory.
  destruct (for_each_filter is_gio_copy
              (fun '(entry, res) =>
                 (if log then emit (Log ("Removing " ++ entry)) else ret tt) ;;;
                 gio_remove (joinpath path entry) log res)
              (fun _ => []) entries) as (t & Ht & F).
  - intros [entry res] _. unfold gio_remove, _run.
    destruct log; cbn; destruct (ok res); cbn; eexists; split; reflexivity.
  - exists t. split; [exact Ht|]. rewrite F. apply concat_map_nil.
Qed.

End SyncOpsFacts.

Module SyncOpsSpec.
Import SyncService SyncOps SyncFacts SyncOpsFacts.

(** With an empty source directory [copy_library_to_watch] returns
    without running any command; when a log is given it carries the notice
    that no files were found. *)
Theorem copy_library_empty_source (GVFS_BASE src_dir music_dir : string)
    (auto_convert log : bool) (music_dir_res : GioCommandResult) :
  exists t,
    copy_library_to_watch GVFS_BASE src_dir true music_dir [] auto_convert log
      music_dir_res = (t, Ok tt)
    /\ List.filter is_run t = []
    /\ (log = true -> Log ("No files found in " ++ src_dir) ∈ t).
Proof.
  unfold copy_library_to_watch, _log. destruct log; cbn; eexists;
    (split; [reflexivity|]); split; try reflexivity; intros; try discriminate.
  set_solver.
Qed.

Lemma copy_library_empty_source_witness :
  exists t,
    copy_library_to_watch "/run/user/1000/gvfs" "/home/u/Music" true
      "/run/user/1000/gvfs/mtp:host=Garmin/Music" [] true true ok_result = (t, Ok tt)
    /\ Log "No files found in /home/u/Music" ∈ t.
Proof.
  destruct (copy_library_empty_source "/run/user/1000/gvfs" "/home/u/Music"
              "/run/user/1000/gvfs/mtp:host=Garmin/Music" true true ok_result)
    as (t & Ht & _ & Hl).
  exists t. split; [exact Ht | exact (Hl eq_refl)].
Defined.

(** A file that needs conversion is converted, copied and cleaned up
    before the next file is touched: as long as no conversion raises, a
    [copy_library_to_watch] run returns, and its steps (temporary files made
    and removed, [ffmpeg] and [gio copy] commands) are, file after file in
    the order of [files], the temporary directory made, the [ffmpeg]
    command, the [gio copy] of the converted file under the [.mp3] name, the
    converted file unlinked and the temporary directory removed, whether
    that copy succeeded or failed; a file that needs no conversion
    contributes its [gio copy] alone. So [ffmpeg] is run and temporary files
    are made only for the files that need conversion, and with
    [auto_convert] off, or when every suffix is [.mp3] in any letter case,
    there are none. *)
Theorem copy_library_conversions (GVFS_BASE src_dir music_dir : string)
    (files : list FileRun) (auto_convert log : bool) (music_dir_res : GioCommandResult) :
  forallb (conversion_succeeds auto_convert) files = true ->
  exists t,
    copy_library_to_watch GVFS_BASE src_dir true music_dir files auto_convert log
      music_dir_res = (t, Ok tt)
    /\ List.filter is_step_event t
       = concat (map (file_steps music_dir auto_convert) files)
    /\ List.filter is_ffmpeg t = concat (map (ffmpeg_events auto_convert) files)
    /\ List.filter is_temp_file_event t
       = concat (map (temp_file_events auto_convert) files)
    /\ (forallb (fun f => negb (needs_conversion auto_convert f)) files = true ->
        List.filter is_ffmpeg t = [] /\ List.filter is_temp_file_event t = []).
Proof.
  intros Hconv.
  assert (Hall : forall f, f ∈ files -> conversion_succeeds auto_convert f = true).
  { intros f Hf. apply list_elem_of_In in Hf.
    by apply (proj1 (forallb_forall _ _) Hconv). }
  destruct (for_each_filter is_step_event
              (fun f => _copy_local_file_to_watch GVFS_BASE f music_dir auto_convert log)
              (file_steps music_dir auto_convert) files) as (t0 & Ht0 & F0).
  { intros f Hf.
    exact (copy_local_file_steps GVFS_BASE f music_dir auto_convert log (Hall f Hf)). }
  destruct (for_each_filter is_ffmpeg
              (fun f => _copy_local_file_to_watch GVFS_BASE f music_dir auto_convert log)
              (ffmpeg_events auto_convert) files) as (t1 & Ht1 & F1).
  { intros f Hf.
    destruct (copy_local_file_conversion GVFS_BASE f music_dir auto_convert log
                (Hall f Hf)) as (t & Ht & Hf1 & _). eauto. }
  destruct (for_each_filter is_temp_file_event
              (fun f => _copy_local_file_to_watch GVFS_BASE f music_dir auto_convert log)
              (temp_file_events auto_convert) files) as (t2 & Ht2 & F2).
  { intros f Hf.
    destruct (copy_local_file_conversion GVFS_BASE f music_dir auto_convert log
                (Hall f Hf)) as (t & Ht & _ & Hf2). eauto. }
  assert (t2 = t1) as -> by congruence.
  assert (t0 = t1) as -> by congruence.
  assert (Hnone : forallb (fun f => negb (needs_conversion auto_convert f)) files = true ->
                  concat (map (ffmpeg_events auto_convert) files) = []
                  /\ concat (map (temp_file_events auto_convert) files) = []).
  { clear. unfold ffmpeg_events, temp_file_events.
    induction files as [|f files IH]; simpl; [done|].
    intros [Hf Hr]%andb_prop. apply negb_true_iff in Hf. rewrite Hf. simpl.
    by apply IH. }
  unfold copy_library_to_watch. simpl.
  destruct files as [|f files].
  - simpl in *. injection Ht1 as <-.
    destruct log; cbn; eexists; (split; [reflexivity|]); cbn;
      (split; [done|]); (split; [done|]); (split; [done|]); done.
  - rewrite Ht1. unfold ensure_directory, _run, _log.
    destruct log; cbn; eexists; (split; [reflexivity|]); cbn;
      rewrite F0, F1, F2; (split; [done|]); (split; [done|]); (split; [done|]);
      exact Hnone.
Qed.

Lemma copy_library_conversions_witness :
  exists t,
    mixed_run = (t, Ok tt)
    /\ List.filter is_step_event t
       = [Mkdtemp "/tmp/gpe_ffmpeg_0";
          Run ["ffmpeg"; "-y"; "-i"; "/home/u/Music/a.FLAC"; "-vn"; "-acodec";
               "libmp3lame"; "-qscale:a"; "2"; "/tmp/gpe_ffmpeg_0/a.mp3"];
          Run ["gio"; "copy"; "/tmp/gpe_ffmpeg_0/a.mp3";
               "/run/user/1000/gvfs/mtp:host=Garmin/Music/a.mp3"];
          Unlink "/tmp/gpe_ffmpeg_0/a.mp3";
          Rmdir "/tmp/gpe_ffmpeg_0";
          Run ["gio"; "copy"; "/home/u/Music/b.mp3";
               "/run/user/1000/gvfs/mtp:host=Garmin/Music/b.mp3"]].
Proof.
  destruct (copy_library_conversions "/run/user/1000/gvfs" "/home/u/Music"
              "/run/user/1000/gvfs/mtp:host=Garmin/Music" mixed_files true true
              ok_result eq_refl) as (t & Ht & Hsteps & _).
  exists t. split; [exact Ht|]. exact Hsteps.
Defined.

(** [copy_watch_items_to_local] makes the local directory first, then
    issues one [gio copy] per selected entry, in order, with [-r] exactly
    for the directories, and returns whatever these copies answer. *)
Theorem copy_watch_items_to_local_spec (GVFS_BASE : string) (entries : list WatchItem)
    (local_dir : string) (log : bool) :
  exists t,
    copy_watch_items_to_local GVFS_BASE entries local_dir log
    = (Mkdir local_dir :: t, Ok tt)
    /\ gio_copies t = map (watch_copy_command local_dir) entries.
Proof.
  unfold copy_watch_items_to_local.
  destruct (for_each_filter is_gio_copy
              (fun e => _gio_copy_with_log GVFS_BASE (item_path e) local_dir
                          (name (item_path e)) (item_is_dir e) log
                          (item_parent_result e) (item_result e))
              (fun e => [watch_copy_command local_dir e]) entries) as (t & Ht & F).
  { intros e _. apply gio_copy_with_log_watch. }
  rewrite Ht. exists t. split; [reflexivity|].
  unfold gio_copies. by rewrite F, concat_map_singleton.
Qed.

(** [delete_watch_items] issues one [gio remove] per selected entry, in
    order, and returns normally; a removal that fails is reported on the
    log, when there is one, and does not stop the others. *)
Theorem delete_watch_items_spec (entries : list WatchItem) (log : bool) :
  exists t,
    delete_watch_items entries log = (t, Ok tt)
    /\ gio_removes t = map watch_remove_command entries
    /\ (log = true ->
        forall e, e ∈ entries -> ok (item_result e) = false ->
                  remove_failure_line e ∈ t).
Proof.
  unfold delete_watch_items.
  destruct (for_each_filter is_gio_remove
              (fun e => _log log ("Removing " ++ name (item_path e)) ;;;
                        gio_remove (str (item_path e)) log (item_result e))
              (fun e => [watch_remove_command e]) entries) as (t & Ht & F).
  { intros e _. destruct (delete_watch_item e log) as (t & Ht & Hf & _). eauto. }
  destruct (for_each_elem
              (fun e => _log log ("Removing " ++ name (item_path e)) ;;;
                        gio_remove (str (item_path e)) log (item_result e))
              entries) as (t' & Ht' & M).
  { intros e _. destruct (delete_watch_item e log) as (t0 & Ht0 & _). eauto. }
  assert (t' = t) as -> by congruence.
  exists t. split; [exact Ht|]. split.
  - unfold gio_removes. by rewrite F, concat_map_singleton.
  - intros Hlog e He Hko. apply (M e _ He).
    destruct (delete_watch_item e log) as (t0 & Ht0 & _ & L). rewrite Ht0. simpl.
    by apply L.
Qed.

Lemma delete_watch_items_spec_witness :
  exists t,
    delete_watch_items
      [ {| item_path := {| parent := "/run/user/1000/gvfs/mtp:host=Garmin/Music";
                           stem := "a"; suffix := ".mp3" |};
           item_is_dir := false; item_parent_result := ok_result;
           item_result := failed_result |} ] true = (t, Ok tt)
    /\ Log ("Failed to remove /run/user/1000/gvfs/mtp:host=Garmin/Music/a.mp3: "
            ++ "No space left on device") ∈ t.
Proof.
  destruct (delete_watch_items_spec
              [ {| item_path := {| parent := "/run/user/1000/gvfs/mtp:host=Garmin/Music";
                                   stem := "a"; suffix := ".mp3" |};
                   item_is_dir := false; item_parent_result := ok_result;
                   item_result := failed_result |} ] true) as (t & Ht & _ & L).
  exists t. split; [exact Ht|].
  apply (L eq_refl
           {| item_path := {| parent := "/run/user/1000/gvfs/mtp:host=Garmin/Music";
                              stem := "a"; suffix := ".mp3" |};
              item_is_dir := false; item_parent_result := ok_result;
              item_result := failed_result |}); [left | reflexivity].
Defined.



(** [gio_list] runs one command; a failed listing gives no names, and
    every name returned is a non-empty string without leading or trailing
    whitespace. *)
Theorem gio_list_names_clean (path : string) (res : GioCommandResult) :
  gio_list path res = ([Run ["gio"; "list"; path]], Ok (listed_names res))
  /\ (ok res = false -> listed_names res = [])
  /\ Forall (fun n => n <> "" /\ strip n = n) (listed_names res).
Proof.
  split; [apply gio_list_returns|]. unfold listed_names. split.
  - by intros ->.
  - destruct (ok res); simpl; [|constructor].
    induction (splitlines (stdout res)) as [|line lines IH]; simpl; [constructor|].
    destruct (String.eqb_spec (strip line) ""); simpl; [exact IH|].
    constructor; [|exact IH]. split; [done | apply StripFacts.strip_idempotent].
Qed.

Lemma gio_list_names_clean_witness :
  listed_names failed_result = [].
Proof.
  destruct (gio_list_names_clean "/run/user/1000/gvfs/mtp:host=Garmin/Music"
              failed_result) as (_ & H & _).
  apply H. reflexivity.
Defined.

(** [full_sync] wipes before it looks at the source: all removals of the
    listed entries are issued, and no copy, before [copy_library_to_watch]
    starts, and the result is that of the copy. When the source directory
    does not exist the music directory has been wiped all the same and
    [FileNotFoundError] is raised. *)
Theorem full_sync_wipes_first (GVFS_BASE src_dir : string) (src_exists : bool)
    (music_dir music_parent : string) (files : list FileRun) (auto_convert log : bool)
    (parent_res dir_res listing : GioCommandResult)
    (removal : string -> GioCommandResult) (music_dir_res : GioCommandResult) :
  exists t_wipe,
    wipe_watch_music music_dir music_parent log parent_res dir_res listing removal
    = (t_wipe, Ok tt)
    /\ gio_removes t_wipe
       = map (fun n => Run ["gio"; "remove"; joinpath music_dir n]) (listed_names listing)
    /\ gio_copies t_wipe = []
    /\ full_sync GVFS_BASE src_dir src_exists music_dir music_parent files auto_convert
         log parent_res dir_res listing removal music_dir_res
       = ((t_wipe
           ++ (copy_library_to_watch GVFS_BASE src_dir src_exists music_dir files
                 auto_convert log music_dir_res).1)%list,
          (copy_library_to_watch GVFS_BASE src_dir src_exists music_dir files
             auto_convert log music_dir_res).2)
    /\ (src_exists = false ->
        full_sync GVFS_BASE src_dir src_exists music_dir music_parent files auto_convert
          log parent_res dir_res listing removal music_dir_res
        = (t_wipe,
           Raise (FileNotFoundError
                    ("Source directory " ++ src_dir ++ " does not exist")))).
Proof.
  set (entries := map (fun n => (n, removal n)) (listed_names listing)).
  destruct (wipe_directory_continues music_dir log entries) as (tr & Hr & Rr).
  destruct (wipe_directory_no_copy music_dir log entries) as (tc & Hc & Cc).
  assert (tc = tr) as -> by congruence.
  assert (Hw : wipe_watch_music music_dir music_parent log parent_res dir_res listing
                 removal
               = ((if log then [Log ("Wiping " ++ music_dir)] else [])
                  ++ [Run ["gio"; "make-directory"; music_parent];
                      Run ["gio"; "make-directory"; music_dir];
                      Run ["gio"; "list"; music_dir]] ++ tr, Ok tt)%list).
  { unfold wipe_watch_music. rewrite gio_list_returns.
    unfold ensure_directory, _run, _log.
    destruct log; cbn [io_bind emit ret app]; fold entries; by rewrite Hr. }
  eexists. split; [exact Hw|].
  assert (Hrem : gio_removes
                   ((if log then [Log ("Wiping " ++ music_dir)] else [])
                    ++ [Run ["gio"; "make-directory"; music_parent];
                        Run ["gio"; "make-directory"; music_dir];
                        Run ["gio"; "list"; music_dir]] ++ tr)%list
                 = map (fun n => Run ["gio"; "remove"; joinpath music_dir n])
                     (listed_names listing)).
  { rewrite gio_removes_app, gio_removes_app, Rr. unfold entries.
    rewrite map_map. unfold remove_command. simpl. by destruct log. }
  assert (Hcop : gio_copies
                   ((if log then [Log ("Wiping " ++ music_dir)] else [])
                    ++ [Run ["gio"; "make-directory"; music_parent];
                        Run ["gio"; "make-directory"; music_dir];
                        Run ["gio"; "list"; music_dir]] ++ tr)%list = []).
  { rewrite gio_copies_app, gio_copies_app. unfold gio_copies at 3. rewrite Cc.
    by destruct log. }
  split; [exact Hrem|]. split; [exact Hcop|].
  assert (Hfull : forall r : io unit,
            (wipe_watch_music music_dir music_parent log parent_res dir_res listing
               removal ;;; r) = ((((if log then [Log ("Wiping " ++ music_dir)] else [])
                  ++ [Run ["gio"; "make-directory"; music_parent];
                      Run ["gio"; "make-directory"; music_dir];
                      Run ["gio"; "list"; music_dir]] ++ tr) ++ r.1)%list, r.2)).
  { intros [t r]. rewrite Hw. reflexivity. }
  split; [apply Hfull|].
  intros ->. unfold full_sync. rewrite Hfull. unfold copy_library_to_watch. simpl.
  by rewrite app_nil_r.
Qed.

Lemma full_sync_wipes_first_witness :
  exists t_wipe,
    full_sync "/run/user/1000/gvfs" "/home/u/Missing" false
      "/run/user/1000/gvfs/mtp:host=Garmin/Music" "/run/user/1000/gvfs/mtp:host=Garmin"
      [] true false ok_result ok_result
      {| stdout := "old.mp3"; stderr := ""; returncode := 0 |}
      (fun _ => ok_result) ok_result
    = (t_wipe,
       Raise (FileNotFoundError "Source directory /home/u/Missing does not exist"))
    /\ gio_removes t_wipe
       = [Run ["gio"; "remove"; "/run/user/1000/gvfs/mtp:host=Garmin/Music/old.mp3"]].
Proof.
  destruct (full_sync_wipes_first "/run/user/1000/gvfs" "/home/u/Missing" false
              "/run/user/1000/gvfs/mtp:host=Garmin/Music"
              "/run/user/1000/gvfs/mtp:host=Garmin"
              [] true false ok_result ok_result
              {| stdout := "old.mp3"; stderr := ""; returncode := 0 |}
              (fun _ => ok_result) ok_result) as (t & _ & R & _ & _ & H).
  exists t. split; [exact (H eq_refl) | exact R].
Defined.

End SyncOpsSpec.

Module ConfigStoreSpec.
Import ConfigStore.

(** Preferences survive a save and a load: [from_json] gives back the
    object [to_json] was applied to, and so does [load_preferences] on the
    file [save_preferences] writes. *)
Theorem preferences_round_trip (prefs : UserPreferences) :
  from_json (Some (to_json prefs)) = prefs
  /\ load_preferences (save_preferences prefs) = Ok prefs.
Proof.
  assert (H : from_json (Some (to_json prefs)) = prefs).
  { unfold from_json, to_json.
    destruct (decide _) as [E|_]; [by apply insert_non_empty in E|].
    rewrite lookup_insert_ne by done. rewrite !lookup_insert_eq. by destruct prefs. }
  split; [exact H|]. unfold load_preferences, save_preferences. by rewrite H.
Qed.

(** A missing file, a malformed one, a [null] document and an empty
    object all load as the default preferences; in a non-empty object a
    missing key takes its default, [None] for the watch and [True] for the
    conversion flag. *)
Theorem preferences_defaults :
  load_preferences NoConfig = Ok default_preferences
  /\ (forall msg, load_preferences (Config (Raise (JSONDecodeError msg)))
                  = Ok default_preferences)
  /\ load_preferences (Config (Ok None)) = Ok default_preferences
  /\ load_preferences (Config (Ok (Some ∅))) = Ok default_preferences
  /\ (forall d, d !! "auto_convert_to_mp3" = None ->
                auto_convert_to_mp3 (from_json (Some d)) = PyBool true)
  /\ (forall d, d !! "last_selected_watch" = None ->
                last_selected_watch (from_json (Some d)) = PyNone).
Proof.
  repeat split; try done.
  - intros d Hd. unfold from_json. destruct (decide _); [done|]. simpl. by rewrite Hd.
  - intros d Hd. unfold from_json. destruct (decide _); [done|]. simpl. by rewrite Hd.
Qed.

Lemma preferences_defaults_witness :
  auto_convert_to_mp3
    (from_json (Some (<["last_selected_watch" := PyStr "venu4"]> ∅)))
  = PyBool true.
Proof.
  destruct preferences_defaults as (_ & _ & _ & _ & H & _).
  apply H. reflexivity.
Defined.

End ConfigStoreSpec.

Module WatchProfilesSpec.
Import WatchProfiles.

Lemma lstrip_by_spec p s :
  exists pre, s = pre ++ lstrip_by p s
    /\ WorkoutManager.str_forallb p pre = true
    /\ match WorkoutManager.first_char (lstrip_by p s) with
       | Some ch => p ch = false
       | None => True
       end.
Proof.
  induction s as [|ch s (pre & Hs & Hpre & Hfirst)]; simpl.
  - by exists "".
  - destruct (p ch) eqn:E.
    + exists (String ch pre). simpl. rewrite E, Hpre.
      by rewrite FilenameFacts.append_cons, <- Hs.
    + by exists "".
Qed.

Lemma rstrip_by_cons p ch s :
  rstrip_by p (String ch s)
  = match rstrip_by p s with
    | EmptyString => if p ch then EmptyString else String ch EmptyString
    | r => String ch r
    end.
Proof. reflexivity. Qed.

Lemma rstrip_by_spec p s :
  exists post, s = rstrip_by p s ++ post
    /\ WorkoutManager.str_forallb p post = true
    /\ match WorkoutManager.last_char (rstrip_by p s) with
       | Some ch => p ch = false
       | None => True
       end.
Proof.
  induction s as [|ch s (post & Hs & Hpost & Hlast)].
  - by exists "".
  - rewrite rstrip_by_cons. destruct (rstrip_by p s) as [|d r] eqn:Er.
    + rewrite FilenameFacts.append_nil_l in Hs. subst post.
      destruct (p ch) eqn:E.
      * exists (String ch s). simpl. by rewrite E, Hpost.
      * exists s. simpl. by rewrite FilenameFacts.append_cons.
    + exists post. by rewrite FilenameFacts.append_cons, <- Hs.
Qed.

Lemma rstrip_by_first p s :
  match WorkoutManager.first_char s with Some ch => p ch = false | None => True end ->
  match WorkoutManager.first_char (rstrip_by p s) with
  | Some ch => p ch = false
  | None => True
  end.
Proof.
  destruct s as [|ch s]; [done|]. rewrite rstrip_by_cons. simpl. intros E.
  destruct (rstrip_by p s); [|done]. by rewrite E.
Qed.

Lemma lstrip_by_fixed p s :
  match WorkoutManager.first_char s with Some ch => p ch = false | None => True end ->
  lstrip_by p s = s.
Proof. destruct s as [|ch s]; simpl; [done|]. by intros ->. Qed.

Lemma rstrip_by_fixed p s :
  match WorkoutManager.last_char s with Some ch => p ch = false | None => True end ->
  rstrip_by p s = s.
Proof.
  induction s as [|ch s IH]; [done|].
  destruct s as [|ch' s].
  - simpl. by intros ->.
  - intros H. rewrite rstrip_by_cons, IH; [done | exact H].
Qed.

Lemma str_forallb_ext (f g : ascii -> bool) s :
  (forall ch, f ch = g ch) ->
  WorkoutManager.str_forallb f s = WorkoutManager.str_forallb g s.
Proof.
  intros H. induction s as [|ch s IH]; simpl; [done | by rewrite H, IH].
Qed.

Lemma in_chars_slash ch : in_chars "/" ch = is_slash ch.
Proof. unfold is_slash. simpl. by rewrite orb_false_r. Qed.

(** [normalized_music_subdir] is the configured sub-directory without the
    slashes at its two ends: what is removed is slashes only, the result
    neither starts nor ends with a slash, and normalizing it again changes
    nothing. *)
Theorem normalized_music_subdir_spec (profile : WatchProfile) :
  let n := normalized_music_subdir profile in
  (exists pre post,
      music_subdir profile = pre ++ n ++ post
      /\ WorkoutManager.str_forallb is_slash pre = true
      /\ WorkoutManager.str_forallb is_slash post = true)
  /\ WorkoutManager.first_char n <> Some "/"%char
  /\ WorkoutManager.last_char n <> Some "/"%char
  /\ strip_chars "/" n = n.
Proof.
  unfold normalized_music_subdir, strip_chars.
  set (p := in_chars "/").
  assert (Hp : forall ch, p ch = is_slash ch) by apply in_chars_slash.
  destruct (lstrip_by_spec p (music_subdir profile)) as (pre & Hs & Hpre & Hfirst).
  destruct (rstrip_by_spec p (lstrip_by p (music_subdir profile)))
    as (post & Hl & Hpost & Hlast).
  pose proof (rstrip_by_first p _ Hfirst) as Hfirst'.
  simpl. split; [|split; [|split]].
  - exists pre, post. split; [by rewrite <- Hl|].
    split; [by rewrite <- (str_forallb_ext p is_slash pre Hp)
           | by rewrite <- (str_forallb_ext p is_slash post Hp)].
  - intros E. rewrite E, Hp in Hfirst'. discriminate Hfirst'.
  - intros E. rewrite E, Hp in Hlast. discriminate Hlast.
  - rewrite (lstrip_by_fixed p _ Hfirst'). by apply rstrip_by_fixed.
Qed.

End WatchProfilesSpec.
